(** * Kokoro TTS FastAPI server: the synthesis orchestrator

    A shallow embedding of [kokoro_tts_fastapi_server.py] and the properties
    of its request handler.

    The server is glue code around three collaborators: the Kokoro
    [KPipeline] objects, the [soundfile]/[numpy] writers and an [ffmpeg]
    child process.  The collaborators are not part of the program; they are
    represented by a [World] of oracles.  Every call that leaves the program
    is appended, together with what it returned, to an I/O log carried in
    the program state, so that statements such as "the encoder is never
    invoked" are statements about that log.

    Conventions.
    - A Python [str] is a [string] (its UTF-8 bytes).  The program compares,
      concatenates and tests strings for emptiness, which the byte
      representation preserves, and it lower-cases one string, see [lower].
    - A Python [dict] is a [gmap]; [d.get(k, v)] is [default v (d !! k)].
    - Python exceptions are values of [PyExc]; a computation is a function
      from the state to a result-or-exception and the next state.
    - Logging calls are not represented: they change nothing the handler
      returns or does to its collaborators. *)

From stdpp Require Import gmap strings list fin_maps pretty.
From Stdlib Require Import ZArith Lia Ascii.

Open Scope string_scope.
Open Scope list_scope.

(** ** Python values that cross the boundary *)

(** A number literal passed as [speed]: the handler uses the [int] literal
    [1] in one call and the [float] literal [1.0] in the other.  A float is
    given by the dyadic rational [m * 2^e] it denotes. *)
Inductive PyNumber :=
| PyInt (n : Z)
| PyFloat (m e : Z).

(** Exceptions (instances of [Exception]).  [HTTPException] is FastAPI's;
    [CalledProcessError] is what [subprocess.run(..., check=True)] raises on
    a non-zero exit status; everything else a collaborator may raise is an
    [OtherException] with its class name.  Library exceptions carry the text
    that [str(e)] gives. *)
Inductive PyExc :=
| HTTPException (status_code : Z) (detail : string)
| CalledProcessError (returncode : Z) (stderr : string) (text : string)
| OtherException (cls : string) (text : string).

(** [str(e)].  For [HTTPException] this is Starlette's [__str__], which
    formats [f"{status_code}: {detail}"]. *)
Definition exc_str (e : PyExc) : string :=
  match e with
  | HTTPException status_code detail => pretty status_code +:+ ": " +:+ detail
  | CalledProcessError _ _ text => text
  | OtherException _ text => text
  end.

(** The [ps] component of a yielded batch: the handler accepts a string or
    a tuple whose first element is the string
    ([ps[0] if isinstance(ps, tuple) else ps]). *)
Inductive Phonemes :=
| PsStr (s : string)
| PsTuple (items : list string).

(** An audio array: one-dimensional, a sample being represented by the bit
    pattern of its float.  The handler only moves samples around. *)
Definition Audio : Type := list Z.

(** A batch as the handler unpacks it: [gs, ps, audio]. *)
Record Result := {
  res_gs : string;
  res_ps : Phonemes;
  res_audio : Audio
}.

(** A generator object: the batches it would yield, in order.  A generator
    may raise instead of yielding; nothing after a [Throw] is reachable. *)
Inductive GenItem :=
| Yield (r : Result)
| Throw (e : PyExc).

Definition Generator : Type := list GenItem.

(** A [KPipeline] instance: its identity and its two entry points,
    [pipeline(text, voice=, speed=, split_pattern=)] and
    [pipeline.generate_from_tokens(tokens=, voice=, speed=)].  Both are
    generator functions, so calling them cannot raise; errors surface when
    the generator is iterated.  Like the oracles of the [World] below, an
    entry point takes the time of the call first. *)
Record KPipeline := {
  kp_id : nat;
  kp_call : nat -> string -> string -> PyNumber -> option string -> Generator;
  kp_generate_from_tokens : nat -> string -> string -> PyNumber -> Generator
}.

(** What [FileResponse(path, media_type=, filename=)] is built from. *)
Record FileResponse := {
  fr_path : string;
  fr_media_type : string;
  fr_filename : string
}.

(** The request body, [class TTSRequest(BaseModel)]. *)
Record TTSRequest := {
  text : string;
  lang : string
}.

(** [lang: str = "en"]: a request without the field. *)
Definition TTSRequest_default (t : string) : TTSRequest :=
  {| text := t; lang := "en" |}.

(** ** The I/O log and the world *)

(** One entry per call that leaves the program, with its arguments and with
    what came back. *)
Inductive Event :=
| EvKPipelineInit (lang_code : string) (outcome : PyExc + KPipeline)
| EvUuid4 (random : Z)
| EvPipelineCall (pid : nat) (text voice : string) (speed : PyNumber)
                 (split_pattern : option string) (generator : Generator)
| EvGenerateFromTokens (pid : nat) (tokens voice : string) (speed : PyNumber)
                       (generator : Generator)
| EvSfWrite (path : string) (data : Audio) (samplerate : Z)
            (outcome : PyExc + unit)
| EvSubprocessRun (cmd : list string) (outcome : PyExc + unit).

(** The collaborators.  Each oracle takes the number of external calls made
    so far (the length of the log), so that the same call may answer
    differently at different times.
    - [KPipeline_init n lang_code]: [KPipeline(lang_code=lang_code)].
    - [os_urandom16 n]: the 16 bytes of [os.urandom(16)] inside
      [uuid.uuid4()], read as a big-endian integer.
    - [sf_write n path data samplerate]: [soundfile.write].
    - [subprocess_run n cmd]: [subprocess.run(cmd, check=True,
      capture_output=True)]; it returns for exit status 0, raises
      [CalledProcessError] for any other exit status, and may raise
      something else (the executable is missing, for instance). *)
Record World := {
  gettempdir : string;
  KPipeline_init : nat -> string -> PyExc + KPipeline;
  os_urandom16 : nat -> Z;
  sf_write : nat -> string -> Audio -> Z -> PyExc + unit;
  subprocess_run : nat -> list string -> PyExc + unit
}.

(** The process state: the module-level [pipelines] dict and the log. *)
Record State := {
  pipelines : gmap string KPipeline;
  trace : list Event
}.

Definition initial_state : State := {| pipelines := ∅; trace := [] |}.

(** ** Computations: state and exceptions *)

Definition M (A : Type) : Type := State -> (PyExc + A) * State.

Definition ret {A} (a : A) : M A := fun s => (inr a, s).

Definition raise {A} (e : PyExc) : M A := fun s => (inl e, s).

Definition bind {A B} (m : M A) (k : A -> M B) : M B :=
  fun s =>
    match m s with
    | (inr a, s') => k a s'
    | (inl e, s') => (inl e, s')
    end.

(** [try: m  except Exception as e: h e] *)
Definition try_except {A} (m : M A) (h : PyExc -> M A) : M A :=
  fun s =>
    match m s with
    | (inr a, s') => (inr a, s')
    | (inl e, s') => h e s'
    end.

(** A result computed without touching the state. *)
Definition lift {A} (r : PyExc + A) : M A := fun s => (r, s).

(** An external call: ask the oracle at the current time and log the call
    with its outcome. *)
Definition external {A} (oracle : nat -> PyExc + A)
    (ev : (PyExc + A) -> Event) : M A :=
  fun s =>
    let r := oracle (length (trace s)) in
    (r, {| pipelines := pipelines s; trace := trace s ++ [ev r] |}).

Declare Scope py_scope.
Delimit Scope py_scope with py.
Notation "'let*' x ':=' c 'in' k" := (bind c (fun x => k))
  (at level 10, x name, c at level 100, k at level 200) : py_scope.
Notation "'run' c 'in' k" := (bind c (fun _ => k))
  (at level 10, c at level 100, k at level 200) : py_scope.
Open Scope py_scope.

(** The entries a computation added to the log. *)
Definition new_events (s s' : State) : list Event :=
  drop (length (trace s)) (trace s').

Definition is_encoder_run (ev : Event) : bool :=
  match ev with
  | EvSubprocessRun _ _ => true
  | _ => false
  end.

(** ** Library functions the handler calls *)

(** [str.lower] on the ASCII range.  Python lower-cases by Unicode rules;
    the only non-ASCII characters whose lower case contains an ASCII letter
    are U+0130 (giving [i]) and U+212A (giving [k]), and neither letter
    occurs in a key of [lang_code_map], so the table lookup below cannot
    tell the two apart. *)
Definition ascii_lower (c : ascii) : ascii :=
  let n := nat_of_ascii c in
  if (65 <=? n)%nat && (n <=? 90)%nat then ascii_of_nat (n + 32) else c.

Fixpoint lower (s : string) : string :=
  match s with
  | EmptyString => EmptyString
  | String c s' => String (ascii_lower c) (lower s')
  end.

Definition startswith_sep (s : string) : bool :=
  match s with
  | String "/" _ => true
  | _ => false
  end.

Fixpoint endswith_sep (s : string) : bool :=
  match s with
  | EmptyString => false
  | String c EmptyString => bool_decide (c = "/"%char)
  | String _ s' => endswith_sep s'
  end.

(** [os.path.join(a, b)] of [posixpath]. *)
Definition os_path_join (a b : string) : string :=
  if startswith_sep b then b
  else if bool_decide (a = "") || endswith_sep a then a +:+ b
  else a +:+ "/" +:+ b.

(** [uuid.uuid4()]: [UUID(bytes=os.urandom(16), version=4)].  The 16 bytes
    are an integer below [2^128]; the constructor then forces the variant
    and version fields:
<<
      int &= ~(0xc000 << 48);  int |= 0x8000 << 48
      int &= ~(0xf000 << 64);  int |= version << 76
>> *)
Definition uuid4_int (random : Z) : Z :=
  let int := (random mod 2 ^ 128)%Z in
  let int := Z.land int (Z.lnot (Z.shiftl 0xc000 48)) in
  let int := Z.lor int (Z.shiftl 0x8000 48) in
  let int := Z.land int (Z.lnot (Z.shiftl 0xf000 64)) in
  Z.lor int (Z.shiftl 4 76).

Definition hex_digit (d : Z) : ascii :=
  if (d <? 10)%Z then ascii_of_nat (48 + Z.to_nat d)
  else ascii_of_nat (87 + Z.to_nat d).

(** ['%0<width>x' % i] for [0 <= i < 16^width]. *)
Fixpoint hex_fixed (width : nat) (i : Z) : string :=
  match width with
  | O => ""
  | S k => hex_fixed k (i / 16)%Z +:+ String (hex_digit (i mod 16)%Z) ""
  end.

(** [UUID.__str__]:
<<
      hex = '%032x' % self.int
      return '%s-%s-%s-%s-%s' % (hex[:8], hex[8:12], hex[12:16],
                                 hex[16:20], hex[20:])
>> *)
Definition uuid_str (int : Z) : string :=
  let hex := hex_fixed 32 int in
  String.substring 0 8 hex +:+ "-" +:+ String.substring 8 4 hex +:+ "-" +:+
  String.substring 12 4 hex +:+ "-" +:+ String.substring 16 4 hex +:+ "-" +:+
  String.substring 20 12 hex.

(** [np.concatenate] of one-dimensional arrays. *)
Definition np_concatenate (arrays : list Audio) : Audio := concat arrays.

(** ** The program *)

Section Server.

Variable w : World.

Definition log (ev : Event) (s : State) : State :=
  {| pipelines := pipelines s; trace := trace s ++ [ev] |}.

(** [TEMP_DIR = os.path.join(tempfile.gettempdir(), 'tts_audio')] *)
Definition TEMP_DIR : string := os_path_join (gettempdir w) "tts_audio".

(** [lang_code in pipelines] *)
Definition pipelines_contains (lang_code : string) : M bool :=
  fun s =>
    (inr match pipelines s !! lang_code with Some _ => true | None => false end,
     s).

(** [pipelines[lang_code] = p] *)
Definition pipelines_setitem (lang_code : string) (p : KPipeline) : M unit :=
  fun s =>
    (inr tt, {| pipelines := <[lang_code := p]> (pipelines s);
                trace := trace s |}).

(** [pipelines[lang_code]], a [KeyError] when the key is absent. *)
Definition pipelines_getitem (lang_code : string) : M KPipeline :=
  fun s =>
    match pipelines s !! lang_code with
    | Some p => (inr p, s)
    | None => (inl (OtherException "KeyError" ("'" +:+ lang_code +:+ "'")), s)
    end.

Definition get_pipeline (lang_code : string) : M KPipeline :=
  let* present := pipelines_contains lang_code in
  run (if negb present then
         let* p := external (fun n => KPipeline_init w n lang_code)
                            (EvKPipelineInit lang_code) in
         pipelines_setitem lang_code p
       else ret tt) in
  pipelines_getitem lang_code.

Definition ffmpeg_cmd (wav_path ogg_path : string) : list string :=
  ["ffmpeg"; "-i"; wav_path; "-c:a"; "libopus"; "-b:a"; "24k"; ogg_path; "-y"].

Definition convert_to_ogg (wav_path ogg_path : string) : M bool :=
  try_except
    (let cmd := ffmpeg_cmd wav_path ogg_path in
     run external (fun n => subprocess_run w n cmd) (EvSubprocessRun cmd) in
     ret true)
    (fun e =>
       match e with
       | CalledProcessError _ _ _ => ret false
       | _ => ret false
       end).

(** [str(uuid.uuid4())] *)
Definition uuid4_str : M string :=
  fun s =>
    let random := os_urandom16 w (length (trace s)) in
    (inr (uuid_str (uuid4_int random)), log (EvUuid4 random) s).

(** [pipeline(text, voice=voice, speed=speed, split_pattern=split_pattern)] *)
Definition call_pipeline (pipeline : KPipeline) (text voice : string)
    (speed : PyNumber) (split_pattern : option string) : M Generator :=
  fun s =>
    let generator :=
      kp_call pipeline (length (trace s)) text voice speed split_pattern in
    (inr generator,
     log (EvPipelineCall (kp_id pipeline) text voice speed split_pattern
                         generator) s).

(** [pipeline.generate_from_tokens(tokens=tokens, voice=voice, speed=speed)] *)
Definition generate_from_tokens (pipeline : KPipeline) (tokens voice : string)
    (speed : PyNumber) : M Generator :=
  fun s =>
    let generator :=
      kp_generate_from_tokens pipeline (length (trace s)) tokens voice speed in
    (inr generator,
     log (EvGenerateFromTokens (kp_id pipeline) tokens voice speed generator) s).

(** [ps[0] if isinstance(ps, tuple) else ps] *)
Definition extract_phoneme_string (ps : Phonemes) : PyExc + string :=
  match ps with
  | PsStr s => inr s
  | PsTuple [] => inl (OtherException "IndexError" "tuple index out of range")
  | PsTuple (s :: _) => inr s
  end.

(** The first loop of the handler:
<<
      phonemes = None
      for gs, ps, _ in generator:
          phonemes = ps[0] if isinstance(ps, tuple) else ps
          break
>> *)
Definition first_phonemes (generator : Generator) : PyExc + option string :=
  match generator with
  | [] => inr None
  | Throw e :: _ => inl e
  | Yield r :: _ =>
      match extract_phoneme_string (res_ps r) with
      | inl e => inl e
      | inr s => inr (Some s)
      end
  end.

(** [not phonemes] for [phonemes] that is [None] or a string. *)
Definition not_phonemes (phonemes : option string) : bool :=
  match phonemes with
  | None => true
  | Some s => bool_decide (s = "")
  end.

(** The second loop:
<<
      audio_segments = []
      for gs, ps, audio in generator:
          audio_segments.append(audio)
>> *)
Fixpoint collect_audio (generator : Generator) (audio_segments : list Audio)
    : PyExc + list Audio :=
  match generator with
  | [] => inr audio_segments
  | Throw e :: _ => inl e
  | Yield r :: rest => collect_audio rest (audio_segments ++ [res_audio r])
  end.

(** The two language tables of the handler and lines 67 to 87:
    [lang], [lang_code] and [voice]. *)
Definition lang_code_map : gmap string string :=
  <["en" := "a"]> (<["gb" := "b"]> (<["es" := "e"]> (<["ja" := "j"]>
    (<["zh" := "z"]> ∅)))).

Definition voice_map : gmap string string :=
  <["a" := "af_heart"]> (<["b" := "bf_sunny"]> (<["e" := "em_alex"]>
    (<["j" := "jf_yama"]> (<["z" := "zf_xiaobei"]> ∅)))).

Definition resolve_language (request_lang : string) : string * string :=
  let lang := lower request_lang in
  let lang_code := default "a" (lang_code_map !! lang) in
  let voice := default "af_heart" (voice_map !! lang_code) in
  (lang_code, voice).

(** Lines 111 to 143: from the phoneme string to the response. *)
Definition synthesize_and_deliver (pipeline : KPipeline)
    (voice request_id wav_path ogg_path phonemes : string) : M FileResponse :=
  let* generator :=
    generate_from_tokens pipeline phonemes voice (PyFloat 1 0) in
  let* audio_segments := lift (collect_audio generator []) in
  match audio_segments with
  | [] =>
      raise (HTTPException 500 "No audio segments generated from phonemes")
  | _ =>
      let combined_audio := np_concatenate audio_segments in
      run external (fun n => sf_write w n wav_path combined_audio 24000)
                   (EvSfWrite wav_path combined_audio 24000) in
      let* success := convert_to_ogg wav_path ogg_path in
      if negb success then
        raise (HTTPException 500 "Error during audio conversion")
      else
        ret {| fr_path := ogg_path;
               fr_media_type := "audio/ogg";
               fr_filename := "speech_" +:+ request_id +:+ ".ogg" |}
  end.

(** The body of the handler's [try]. *)
Definition text_to_speech_body (request : TTSRequest) : M FileResponse :=
  let text := text request in
  let '(lang_code, voice) := resolve_language (lang request) in
  let* pipeline := get_pipeline lang_code in
  let* request_id := uuid4_str in
  let wav_path := os_path_join TEMP_DIR (request_id +:+ ".wav") in
  let ogg_path := os_path_join TEMP_DIR (request_id +:+ ".ogg") in
  let* generator := call_pipeline pipeline text voice (PyInt 1) None in
  let* phonemes := lift (first_phonemes generator) in
  if not_phonemes phonemes then
    raise (HTTPException 500 "No phonemes generated from text")
  else
    synthesize_and_deliver pipeline voice request_id wav_path ogg_path
                           (default "" phonemes).

(** [except Exception as e:] of the handler. *)
Definition internal_server_error (e : PyExc) : PyExc :=
  HTTPException 500 ("Internal server error: " +:+ exc_str e).

(** [@app.post("/tts") def text_to_speech(request: TTSRequest)] *)
Definition text_to_speech (request : TTSRequest) : M FileResponse :=
  try_except (text_to_speech_body request)
             (fun e => raise (internal_server_error e)).

End Server.

(** ** The framework boundary *)

(** What the client receives.  FastAPI sends a returned [FileResponse] with
    status 200, turns a raised [HTTPException] into a JSON object with the
    single key [detail] and the exception's status code, and answers any
    other exception with a plain 500. *)
Inductive HttpResponse :=
| RespFile (status : Z) (file : FileResponse)
| RespJson (status : Z) (body : list (string * string))
| RespPlain (status : Z) (body : string).

Definition render (r : PyExc + FileResponse) : HttpResponse :=
  match r with
  | inr file => RespFile 200 file
  | inl (HTTPException status_code detail) =>
      RespJson status_code [("detail", detail)]
  | inl _ => RespPlain 500 "Internal Server Error"
  end.

Definition post_tts (w : World) (request : TTSRequest) (s : State)
    : HttpResponse * State :=
  let '(r, s') := text_to_speech w request s in (render r, s').

Definition response_status (r : HttpResponse) : Z :=
  match r with
  | RespFile status _ => status
  | RespJson status _ => status
  | RespPlain status _ => status
  end.

(** The outcome of one request and the entries it added to the log. *)
Definition tts_result (w : World) (request : TTSRequest) (s : State)
    : PyExc + FileResponse :=
  fst (text_to_speech w request s).

Definition tts_events (w : World) (request : TTSRequest) (s : State)
    : list Event :=
  new_events s (snd (text_to_speech w request s)).

Definition tts_response (w : World) (request : TTSRequest) (s : State)
    : HttpResponse :=
  fst (post_tts w request s).

(** A sequence of uses of the process: direct [get_pipeline] calls and
    whole requests. *)
Inductive Op :=
| OpGetPipeline (lang_code : string)
| OpRequest (request : TTSRequest).

Definition run_op (w : World) (op : Op) (s : State) : State :=
  match op with
  | OpGetPipeline lang_code => snd (get_pipeline w lang_code s)
  | OpRequest request => snd (text_to_speech w request s)
  end.

Definition run_ops (w : World) (ops : list Op) (s : State) : State :=
  foldl (fun s op => run_op w op s) s ops.

(** ** The specification's vocabulary *)

(** The fixed table of the specification: language tag to model code and
    voice. *)
Definition spec_language_table : list (string * (string * string)) :=
  [ ("en", ("a", "af_heart"));
    ("gb", ("b", "bf_sunny"));
    ("es", ("e", "em_alex"));
    ("ja", ("j", "jf_yama"));
    ("zh", ("z", "zf_xiaobei")) ].

Definition spec_default_pair : string * string := ("a", "af_heart").

Fixpoint assoc {V} (k : string) (table : list (string * V)) : option V :=
  match table with
  | [] => None
  | (k', v) :: rest => if String.eqb k k' then Some v else assoc k rest
  end.

Definition spec_resolve (tag : string) : string * string :=
  match assoc (lower tag) spec_language_table with
  | Some entry => entry
  | None => spec_default_pair
  end.

Definition supported_tags : list string := map fst spec_language_table.

(** The batches of a generator that runs to completion without raising. *)
Definition yields (generator : Generator) (batches : list Result) : Prop :=
  generator = map Yield batches.

(** Phonemization gave nothing: no batch at all, or a first batch whose
    phoneme string is empty. *)
Definition no_phoneme_output (generator : Generator) : Prop :=
  generator = [] \/
  exists r rest,
    generator = Yield r :: rest /\ extract_phoneme_string (res_ps r) = inr "".

(** The textual form of a UUID: 8-4-4-4-12 lower-case hexadecimal digits;
    for a version 4 UUID of the RFC 4122 variant the first digit of the
    third group is 4 and the first digit of the fourth is 8, 9, a or b. *)
Definition is_hex_char (c : ascii) : bool :=
  let n := nat_of_ascii c in
  ((48 <=? n)%nat && (n <=? 57)%nat) || ((97 <=? n)%nat && (n <=? 102)%nat).

Fixpoint hex_run (n : nat) (s : string) : option string :=
  match n with
  | O => Some s
  | S k =>
      match s with
      | String c s' => if is_hex_char c then hex_run k s' else None
      | EmptyString => None
      end
  end.

Definition dash_then (k : string -> bool) (s : option string) : bool :=
  match s with
  | Some (String "-" s') => k s'
  | _ => false
  end.

Definition uuid_syntax_ok (s : string) : bool :=
  dash_then (fun s1 =>
    dash_then (fun s2 =>
      dash_then (fun s3 =>
        dash_then (fun s4 =>
          match hex_run 12 s4 with
          | Some EmptyString => true
          | _ => false
          end)
        (hex_run 4 s3))
      (hex_run 4 s2))
    (hex_run 4 s1))
  (hex_run 8 s).

Definition uuid_version4_ok (s : string) : bool :=
  match String.get 14 s, String.get 19 s with
  | Some v, Some r =>
      bool_decide (v = "4"%char) &&
      bool_decide (r ∈ ["8"%char; "9"%char; "a"%char; "b"%char])
  | _, _ => false
  end.

(** The three places where the handler itself gives up, and the detail
    string written there. *)
Inductive AbortPoint :=
| NoPhonemes
| NoAudioSegments
| EncoderFailure.

Definition abort_detail (a : AbortPoint) : string :=
  match a with
  | NoPhonemes => "No phonemes generated from text"
  | NoAudioSegments => "No audio segments generated from phonemes"
  | EncoderFailure => "Error during audio conversion"
  end.

(** What the log of a request shows when it stopped at an abort point. *)
Definition aborts_at (a : AbortPoint) (events : list Event) : Prop :=
  match a with
  | NoPhonemes =>
      exists pid text voice speed split generator,
        In (EvPipelineCall pid text voice speed split generator) events /\
        no_phoneme_output generator
  | NoAudioSegments =>
      exists pid tokens voice speed,
        In (EvGenerateFromTokens pid tokens voice speed []) events
  | EncoderFailure =>
      exists cmd e, In (EvSubprocessRun cmd (inl e)) events
  end.

(** ** Runs of the handler, read off the log *)

Definition request_lang_code (request : TTSRequest) : string :=
  fst (resolve_language (lang request)).

Definition request_voice (request : TTSRequest) : string :=
  snd (resolve_language (lang request)).

(** The request identifier and the two paths that follow from the 16 random
    bytes drawn for a request. *)
Definition request_id_of (random : Z) : string := uuid_str (uuid4_int random).

Definition wav_path_of (w : World) (random : Z) : string :=
  os_path_join (TEMP_DIR w) (request_id_of random +:+ ".wav").

Definition ogg_path_of (w : World) (random : Z) : string :=
  os_path_join (TEMP_DIR w) (request_id_of random +:+ ".ogg").

(** What a successful [get_pipeline] adds to the log: nothing when the
    instance was cached, one construction otherwise. *)
Inductive pipeline_obtained (lang_code : string) (p : KPipeline)
    : list Event -> Prop :=
| obtained_cached : pipeline_obtained lang_code p []
| obtained_new :
    pipeline_obtained lang_code p [EvKPipelineInit lang_code (inr p)].

Definition phonemize_events (request : TTSRequest) (p : KPipeline)
    (random : Z) (generator : Generator) : list Event :=
  [EvUuid4 random;
   EvPipelineCall (kp_id p) (text request) (request_voice request)
                  (PyInt 1) None generator].

Definition synthesize_events (request : TTSRequest) (p : KPipeline)
    (phonemes : string) (generator : Generator) : list Event :=
  [EvGenerateFromTokens (kp_id p) phonemes (request_voice request)
                        (PyFloat 1 0) generator].

Definition write_event (w : World) (random : Z) (segments : list Audio)
    (outcome : PyExc + unit) : Event :=
  EvSfWrite (wav_path_of w random) (np_concatenate segments) 24000 outcome.

Definition encode_event (w : World) (random : Z) (outcome : PyExc + unit)
    : Event :=
  EvSubprocessRun (ffmpeg_cmd (wav_path_of w random) (ogg_path_of w random))
                  outcome.

(** The eight ways through the body of the handler: the entries added to
    the log, and the result.  [tts_body_run] below shows that every
    execution is one of them. *)
Inductive tts_run (w : World) (request : TTSRequest)
    : list Event -> PyExc + FileResponse -> Prop :=
| run_init_raised e :
    tts_run w request
      [EvKPipelineInit (request_lang_code request) (inl e)] (inl e)
| run_phonemize_raised init p random g e :
    pipeline_obtained (request_lang_code request) p init ->
    first_phonemes g = inl e ->
    tts_run w request (init ++ phonemize_events request p random g) (inl e)
| run_no_phonemes init p random g phonemes :
    pipeline_obtained (request_lang_code request) p init ->
    first_phonemes g = inr phonemes ->
    not_phonemes phonemes = true ->
    tts_run w request (init ++ phonemize_events request p random g)
      (inl (HTTPException 500 (abort_detail NoPhonemes)))
| run_synthesize_raised init p random g ph g2 e :
    pipeline_obtained (request_lang_code request) p init ->
    first_phonemes g = inr (Some ph) ->
    ph <> "" ->
    collect_audio g2 [] = inl e ->
    tts_run w request
      (init ++ phonemize_events request p random g
            ++ synthesize_events request p ph g2)
      (inl e)
| run_no_audio init p random g ph g2 :
    pipeline_obtained (request_lang_code request) p init ->
    first_phonemes g = inr (Some ph) ->
    ph <> "" ->
    collect_audio g2 [] = inr [] ->
    tts_run w request
      (init ++ phonemize_events request p random g
            ++ synthesize_events request p ph g2)
      (inl (HTTPException 500 (abort_detail NoAudioSegments)))
| run_write_raised init p random g ph g2 segments e :
    pipeline_obtained (request_lang_code request) p init ->
    first_phonemes g = inr (Some ph) ->
    ph <> "" ->
    collect_audio g2 [] = inr segments ->
    segments <> [] ->
    tts_run w request
      (init ++ phonemize_events request p random g
            ++ synthesize_events request p ph g2
            ++ [write_event w random segments (inl e)])
      (inl e)
| run_encoder_failed init p random g ph g2 segments e :
    pipeline_obtained (request_lang_code request) p init ->
    first_phonemes g = inr (Some ph) ->
    ph <> "" ->
    collect_audio g2 [] = inr segments ->
    segments <> [] ->
    tts_run w request
      (init ++ phonemize_events request p random g
            ++ synthesize_events request p ph g2
            ++ [write_event w random segments (inr tt);
                encode_event w random (inl e)])
      (inl (HTTPException 500 (abort_detail EncoderFailure)))
| run_delivered init p random g ph g2 segments :
    pipeline_obtained (request_lang_code request) p init ->
    first_phonemes g = inr (Some ph) ->
    ph <> "" ->
    collect_audio g2 [] = inr segments ->
    segments <> [] ->
    tts_run w request
      (init ++ phonemize_events request p random g
            ++ synthesize_events request p ph g2
            ++ [write_event w random segments (inr tt);
                encode_event w random (inr tt)])
      (inr {| fr_path := ogg_path_of w random;
              fr_media_type := "audio/ogg";
              fr_filename := "speech_" +:+ request_id_of random +:+ ".ogg" |}).

(** What the [except] clause of the handler makes of the body's result. *)
Definition surfaced (r : PyExc + FileResponse) : PyExc + FileResponse :=
  match r with
  | inl e => inl (internal_server_error e)
  | inr file => inr file
  end.

Definition no_encoder_run (events : list Event) : Prop :=
  Forall (fun ev => is_encoder_run ev = false) events.

(** ** A small world to run the program in *)

Definition demo_batch (ps : string) (audio : Audio) : Result :=
  {| res_gs := ""; res_ps := PsStr ps; res_audio := audio |}.

(** A pipeline that yields nothing for the empty text and two batches
    otherwise, and that synthesizes two segments from any phoneme string
    except ["ph:mute"], for which it yields nothing. *)
Definition demo_pipeline (id : nat) : KPipeline :=
  {| kp_id := id;
     kp_call := fun _ text _ _ _ =>
       if String.eqb text "" then []
       else [Yield (demo_batch ("ph:" +:+ text) [7%Z]);
             Yield (demo_batch "ph:later" [8%Z])];
     kp_generate_from_tokens := fun _ tokens _ _ =>
       if String.eqb tokens "ph:mute" then []
       else [Yield (demo_batch tokens [10%Z; 20%Z]);
             Yield (demo_batch tokens [30%Z])] |}.

Definition demo_world : World :=
  {| gettempdir := "/tmp";
     KPipeline_init := fun n _ => inr (demo_pipeline n);
     os_urandom16 := fun n => (0x0123456789abcdef0123456789abcdef + Z.of_nat n)%Z;
     sf_write := fun _ _ _ _ => inr tt;
     subprocess_run := fun _ _ => inr tt |}.

(** The same world with an encoder that exits with status 1. *)
Definition demo_world_encoder_fails : World :=
  {| gettempdir := gettempdir demo_world;
     KPipeline_init := KPipeline_init demo_world;
     os_urandom16 := os_urandom16 demo_world;
     sf_write := sf_write demo_world;
     subprocess_run := fun _ _ =>
       inl (CalledProcessError 1 "ffmpeg: error"
              "Command 'ffmpeg' returned non-zero exit status 1.") |}.

Definition demo_request : TTSRequest := {| text := "hello"; lang := "GB" |}.
Definition demo_request_empty : TTSRequest := {| text := ""; lang := "en" |}.
Definition demo_request_mute : TTSRequest := {| text := "mute"; lang := "ja" |}.


(** ** Further vocabulary: the log, the cache and more worlds *)

Definition is_init_event (ev : Event) : bool :=
  match ev with
  | EvKPipelineInit _ _ => true
  | _ => false
  end.

Definition is_write_event (ev : Event) : bool :=
  match ev with
  | EvSfWrite _ _ _ _ => true
  | _ => false
  end.

Definition is_synthesis_event (ev : Event) : bool :=
  match ev with
  | EvGenerateFromTokens _ _ _ _ _ => true
  | _ => false
  end.

(** [ev] is a construction for [lang_code] that returned an instance. *)
Definition constructed (lang_code : string) (ev : Event) : bool :=
  match ev with
  | EvKPipelineInit c (inr _) => String.eqb lang_code c
  | _ => false
  end.

(** A computation that leaves [pipelines] alone and constructs nothing. *)
Definition quiet {A} (m : M A) : Prop :=
  forall s,
    pipelines (snd (m s)) = pipelines s /\
    exists evs,
      trace (snd (m s)) = trace s ++ evs /\
      Forall (fun ev => is_init_event ev = false) evs.

(** The cache holds, for each code, exactly the instance of the one
    successful construction the log shows for that code. *)
Definition cache_matches_log (s : State) : Prop :=
  forall lang_code,
    List.filter (constructed lang_code) (trace s) =
    match pipelines s !! lang_code with
    | Some p => [EvKPipelineInit lang_code (inr p)]
    | None => []
    end.

(** The values of [lang_code_map], with its default. *)
Definition model_codes : list string := ["a"; "b"; "e"; "j"; "z"].

(** [s] without its hyphens. *)
Fixpoint undash (s : string) : string :=
  match s with
  | EmptyString => EmptyString
  | String c s' => if Ascii.eqb c "-" then undash s' else String c (undash s')
  end.

(** The value of a lower-case hexadecimal digit, and [int(s, 16)]. *)
Definition hex_value (c : ascii) : Z :=
  let n := Z.of_nat (nat_of_ascii c) in
  if (n <? 58)%Z then (n - 48)%Z else (n - 87)%Z.

Fixpoint parse_hex_from (acc : Z) (s : string) : Z :=
  match s with
  | EmptyString => acc
  | String c s' => parse_hex_from (16 * acc + hex_value c)%Z s'
  end.

Definition parse_hex (s : string) : Z := parse_hex_from 0 s.

(** A world whose very first external call, a construction, raises. *)
Definition demo_world_flaky : World :=
  {| gettempdir := gettempdir demo_world;
     KPipeline_init := fun n lang_code =>
       match n with
       | O => inl (OtherException "RuntimeError" "model download failed")
       | S _ => KPipeline_init demo_world n lang_code
       end;
     os_urandom16 := os_urandom16 demo_world;
     sf_write := sf_write demo_world;
     subprocess_run := subprocess_run demo_world |}.

(** A world in which [soundfile.write] raises. *)
Definition demo_world_write_fails : World :=
  {| gettempdir := gettempdir demo_world;
     KPipeline_init := KPipeline_init demo_world;
     os_urandom16 := os_urandom16 demo_world;
     sf_write := fun _ _ _ _ =>
       inl (OtherException "LibsndfileError" "Error opening file");
     subprocess_run := subprocess_run demo_world |}.

(** A pipeline whose phoneme generator yields an empty tuple as [ps], and
    whose synthesis generator raises after its first batch. *)
Definition odd_pipeline (id : nat) : KPipeline :=
  {| kp_id := id;
     kp_call := fun _ text _ _ _ =>
       if String.eqb text "tuple" then
         [Yield {| res_gs := text; res_ps := PsTuple []; res_audio := [] |}]
       else [Yield (demo_batch ("ph:" +:+ text) [])];
     kp_generate_from_tokens := fun _ tokens _ _ =>
       [Yield (demo_batch tokens [1%Z; 2%Z]);
        Throw (OtherException "RuntimeError" "out of memory");
        Yield (demo_batch tokens [3%Z])] |}.

Definition demo_world_odd : World :=
  {| gettempdir := gettempdir demo_world;
     KPipeline_init := fun n _ => inr (odd_pipeline n);
     os_urandom16 := os_urandom16 demo_world;
     sf_write := sf_write demo_world;
     subprocess_run := subprocess_run demo_world |}.

Definition demo_request_tuple : TTSRequest :=
  {| text := "tuple"; lang := "en" |}.

(** * Properties *)

(** ** The monad and the log *)

Lemma new_events_app s evs pl :
  new_events s {| pipelines := pl; trace := trace s ++ evs |} = evs.
Proof. unfold new_events; simpl. by rewrite drop_app_length. Qed.

(** ** [get_pipeline] *)

(** The three behaviours of [get_pipeline]: a hit, a miss whose construction
    raises, a miss whose construction succeeds.  The final subscript never
    raises [KeyError]. *)
Lemma get_pipeline_cases w lang_code s :
  (exists p,
      pipelines s !! lang_code = Some p /\
      get_pipeline w lang_code s = (inr p, s)) \/
  (exists e,
      pipelines s !! lang_code = None /\
      KPipeline_init w (length (trace s)) lang_code = inl e /\
      get_pipeline w lang_code s =
        (inl e, log (EvKPipelineInit lang_code (inl e)) s)) \/
  (exists p,
      pipelines s !! lang_code = None /\
      KPipeline_init w (length (trace s)) lang_code = inr p /\
      get_pipeline w lang_code s =
        (inr p, {| pipelines := <[lang_code := p]> (pipelines s);
                   trace := trace s ++ [EvKPipelineInit lang_code (inr p)] |})).
Proof.
  unfold get_pipeline, bind, pipelines_contains, pipelines_getitem.
  destruct (pipelines s !! lang_code) as [p|] eqn:Hlook; simpl.
  - left. exists p. by rewrite Hlook.
  - right. unfold external, pipelines_setitem, log.
    destruct (KPipeline_init w (length (trace s)) lang_code) as [e|p] eqn:Hinit.
    + left. by exists e.
    + right. exists p. simpl. by rewrite lookup_insert_eq.
Qed.

(** ** Every execution of the handler is one of the eight runs *)

Arguments uuid_str : simpl never.
Arguments uuid4_int : simpl never.
Arguments os_path_join : simpl never.
Arguments TEMP_DIR : simpl never.
Arguments np_concatenate : simpl never.
Arguments first_phonemes : simpl never.
Arguments collect_audio : simpl never.
Arguments not_phonemes : simpl never.
Arguments resolve_language : simpl never.
Arguments String.append : simpl never.
Arguments ffmpeg_cmd : simpl never.

Lemma text_to_speech_body_unfold w request :
  text_to_speech_body w request =
  bind (get_pipeline w (request_lang_code request)) (fun pipeline =>
    let* request_id := uuid4_str w in
    let wav_path := os_path_join (TEMP_DIR w) (request_id +:+ ".wav") in
    let ogg_path := os_path_join (TEMP_DIR w) (request_id +:+ ".ogg") in
    let* generator :=
      call_pipeline pipeline (text request) (request_voice request)
                    (PyInt 1) None in
    let* phonemes := lift (first_phonemes generator) in
    if not_phonemes phonemes then
      raise (HTTPException 500 "No phonemes generated from text")
    else
      synthesize_and_deliver w pipeline (request_voice request) request_id
                             wav_path ogg_path (default "" phonemes)).
Proof.
  unfold text_to_speech_body, request_lang_code, request_voice.
  by destruct (resolve_language (lang request)).
Qed.

Lemma not_phonemes_false ph :
  not_phonemes ph = false -> exists s, ph = Some s /\ s <> "".
Proof.
  destruct ph as [s|]; unfold not_phonemes; [|done].
  intros H. exists s. split; [done|]. by apply bool_decide_eq_false in H.
Qed.

Lemma convert_to_ogg_run w wav_path ogg_path s :
  convert_to_ogg w wav_path ogg_path s =
  let outcome :=
    subprocess_run w (length (trace s)) (ffmpeg_cmd wav_path ogg_path) in
  (inr (if outcome is inl _ then false else true),
   log (EvSubprocessRun (ffmpeg_cmd wav_path ogg_path) outcome) s).
Proof.
  unfold convert_to_ogg, try_except, bind, external, log, ret. simpl.
  destruct (subprocess_run w _ _) as [e|[]]; [by destruct e | done].
Qed.

Ltac close_log :=
  unfold log, phonemize_events, synthesize_events, write_event, encode_event,
         wav_path_of, ogg_path_of, request_id_of;
  simpl; rewrite <- ?app_assoc; reflexivity.

Lemma tts_body_run w request s :
  exists evs pl r,
    text_to_speech_body w request s =
      (r, {| pipelines := pl; trace := trace s ++ evs |}) /\
    tts_run w request evs r /\
    pipelines s ⊆ pl.
Proof.
  rewrite text_to_speech_body_unfold.
  match goal with
  | |- context [bind (get_pipeline _ _) ?k] => set (K := k)
  end.
  assert (Htail : forall init p s1,
    pipeline_obtained (request_lang_code request) p init ->
    exists evs r,
      K p s1 = (r, {| pipelines := pipelines s1; trace := trace s1 ++ evs |}) /\
      tts_run w request (init ++ evs) r).
  { intros init p s1 Hinit. subst K.
    unfold bind at 1. unfold uuid4_str. cbn beta iota zeta.
    set (random := os_urandom16 w (length (trace s1))).
    unfold bind at 1. unfold call_pipeline. cbn beta iota zeta.
    set (g := kp_call p _ _ _ _ _).
    unfold bind at 1, lift at 1.
    destruct (first_phonemes g) as [e|ph] eqn:Hph.
    { eexists _, _. split; [|by eapply run_phonemize_raised].
      close_log. }
    destruct (not_phonemes ph) eqn:Hnot.
    { eexists _, _. split; [|by eapply run_no_phonemes].
      close_log. }
    apply not_phonemes_false in Hnot as (tokens & -> & Hne). simpl default.
    unfold synthesize_and_deliver.
    unfold bind at 1, generate_from_tokens at 1. cbn beta iota zeta.
    set (g2 := kp_generate_from_tokens p _ _ _ _).
    unfold bind at 1, lift at 1.
    destruct (collect_audio g2 []) as [e|segments] eqn:Hcol.
    { eexists _, _. split; [|by eapply run_synthesize_raised].
      close_log. }
    destruct segments as [|seg segments].
    { eexists _, _. split; [|by eapply run_no_audio].
      close_log. }
    unfold bind at 1, external at 1. cbn beta iota zeta.
    match goal with
    | |- context [sf_write w ?n ?path ?data ?rate] =>
        destruct (sf_write w n path data rate) as [e|[]] eqn:Hwrite
    end.
    { eexists _, _. split; [|by eapply run_write_raised].
      close_log. }
    unfold bind at 1. rewrite convert_to_ogg_run. cbn beta iota zeta.
    match goal with
    | |- context [subprocess_run w ?n ?cmd] =>
        destruct (subprocess_run w n cmd) as [e|[]] eqn:Hrun
    end.
    { eexists _, _. split; [|by eapply run_encoder_failed].
      close_log. }
    eexists _, _. split; [|by eapply run_delivered].
    close_log. }
  unfold bind at 1.
  destruct (get_pipeline_cases w (request_lang_code request) s)
    as [(p & Hlook & ->) | [(e & Hlook & Hinit & ->) | (p & Hlook & Hinit & ->)]].
  - destruct (Htail [] p s (obtained_cached _ _)) as (evs & r & HK & Hrun).
    exists evs, (pipelines s), r. by rewrite HK.
  - exists [EvKPipelineInit (request_lang_code request) (inl e)], (pipelines s),
           (inl e).
    split; [done|]. split; [apply run_init_raised | done].
  - destruct (Htail _ p
        {| pipelines := <[request_lang_code request := p]> (pipelines s);
           trace := trace s ++ [EvKPipelineInit (request_lang_code request) (inr p)] |}
        (obtained_new _ _)) as (evs & r & HK & Hrun).
    exists ([EvKPipelineInit (request_lang_code request) (inr p)] ++ evs),
           (<[request_lang_code request := p]> (pipelines s)), r.
    rewrite HK. simpl. rewrite <- app_assoc.
    split; [done|]. split; [done|]. by apply insert_subseteq.
Qed.

(** The log and the result of a request, as a run. *)
Lemma request_run w request s :
  exists r,
    tts_run w request (tts_events w request s) r /\
    fst (text_to_speech_body w request s) = r /\
    tts_result w request s = surfaced r.
Proof.
  destruct (tts_body_run w request s) as (evs & pl & r & Hbody & Hrun & _).
  exists r. unfold tts_events, tts_result, text_to_speech, try_except.
  rewrite Hbody. destruct r as [e|file]; simpl; by rewrite new_events_app.
Qed.

Lemma no_phoneme_output_spec g :
  no_phoneme_output g <->
  exists ph, first_phonemes g = inr ph /\ not_phonemes ph = true.
Proof.
  unfold no_phoneme_output, first_phonemes. split.
  - intros [-> | (r & rest & -> & Hps)].
    + by exists None.
    + exists (Some ""). by rewrite Hps.
  - intros (ph & Hfirst & Hnot). destruct g as [|[r|e] rest]; [by left | | done].
    right. exists r, rest. split; [done|].
    destruct (extract_phoneme_string (res_ps r)) as [e|str]; [done|].
    injection Hfirst as <-. simpl in Hnot.
    by apply bool_decide_eq_true in Hnot as ->.
Qed.

(** Case analysis on a run, and on where an entry sits in its log. *)
Ltac invert_run H :=
  inversion H; subst; clear H;
  repeat match goal with
         | Hp : pipeline_obtained _ _ _ |- _ => inversion Hp; subst; clear Hp
         end.

Ltac find_in_log H :=
  unfold phonemize_events, synthesize_events, write_event, encode_event in H;
  simpl in H;
  repeat (destruct H as [H|H]; try discriminate H);
  try contradiction.

Ltac log_has_no_encoder :=
  unfold no_encoder_run, phonemize_events, synthesize_events;
  simpl; repeat constructor.

Lemma no_phonemes_run w request evs r pid txt voice speed split g :
  tts_run w request evs r ->
  In (EvPipelineCall pid txt voice speed split g) evs ->
  no_phoneme_output g ->
  r = inl (HTTPException 500 (abort_detail NoPhonemes)) /\ no_encoder_run evs.
Proof.
  intros Hrun Hin Hno. apply no_phoneme_output_spec in Hno as (ph0 & Hf & Hn).
  invert_run Hrun; find_in_log Hin; injection Hin as <- <- <- <- <- <-;
    try congruence;
    try (split; [done | log_has_no_encoder]).
  all: rewrite Hf in *; simplify_eq; simpl in Hn;
    by apply bool_decide_eq_true in Hn.
Qed.

Lemma tts_response_render w request s :
  tts_response w request s = render (tts_result w request s).
Proof.
  unfold tts_response, tts_result, post_tts.
  by destruct (text_to_speech w request s).
Qed.

Lemma no_audio_run w request evs r pid tokens voice speed :
  tts_run w request evs r ->
  In (EvGenerateFromTokens pid tokens voice speed []) evs ->
  r = inl (HTTPException 500 (abort_detail NoAudioSegments)) /\
  no_encoder_run evs.
Proof.
  intros Hrun Hin.
  invert_run Hrun; find_in_log Hin; injection Hin as ? ? ? ? ?; subst;
    try (split; [done | log_has_no_encoder]);
    by match goal with
       | Hc : collect_audio [] [] = _ |- _ => inversion Hc
       end.
Qed.

Lemma encoder_failed_run w request evs r cmd e :
  tts_run w request evs r ->
  In (EvSubprocessRun cmd (inl e)) evs ->
  r = inl (HTTPException 500 (abort_detail EncoderFailure)).
Proof.
  intros Hrun Hin. invert_run Hrun; find_in_log Hin; done.
Qed.

(** The run of a request that stopped at an abort point raised that point's
    [HTTPException] inside the [try]. *)
Lemma abort_point_run w request evs r a :
  tts_run w request evs r ->
  aborts_at a evs ->
  r = inl (HTTPException 500 (abort_detail a)).
Proof.
  intros Hrun. destruct a; simpl.
  - intros (pid & txt & voice & speed & split & g & Hin & Hno).
    by destruct (no_phonemes_run _ _ _ _ _ _ _ _ _ _ Hrun Hin Hno).
  - intros (pid & tokens & voice & speed & Hin).
    by destruct (no_audio_run _ _ _ _ _ _ _ _ Hrun Hin).
  - intros (cmd & e & Hin). by eapply encoder_failed_run.
Qed.

(** ** Abort points *)

(** C4.  If the phonemization step yields no phoneme output (the generator
    yields no batch, or its first batch has an empty phoneme string), the
    request fails: the handler raises a 500 error, and the log of the
    request contains no invocation of the external encoder. *)
Theorem no_phonemes_fails_without_encoding
    w request s pid txt voice speed split g :
  In (EvPipelineCall pid txt voice speed split g) (tts_events w request s) ->
  no_phoneme_output g ->
  tts_result w request s =
    inl (HTTPException 500
           "Internal server error: 500: No phonemes generated from text") /\
  response_status (tts_response w request s) = 500%Z /\
  no_encoder_run (tts_events w request s).
Proof.
  intros Hin Hno.
  destruct (request_run w request s) as (r & Hrun & _ & Hres).
  destruct (no_phonemes_run _ _ _ _ _ _ _ _ _ _ Hrun Hin Hno) as [-> Henc].
  rewrite tts_response_render, Hres. by repeat split.
Qed.

Lemma no_phonemes_fails_without_encoding_witness :
  tts_result demo_world demo_request_empty initial_state =
    inl (HTTPException 500
           "Internal server error: 500: No phonemes generated from text") /\
  response_status (tts_response demo_world demo_request_empty initial_state)
    = 500%Z /\
  no_encoder_run (tts_events demo_world demo_request_empty initial_state).
Proof.
  apply (no_phonemes_fails_without_encoding
           demo_world demo_request_empty initial_state
           0 "" "af_heart" (PyInt 1) None []).
  - vm_compute. tauto.
  - by left.
Defined.

(** C5.  If the token-to-audio generator yields no audio batch, the request
    fails: the handler raises a 500 error, and the log of the request
    contains no invocation of the external encoder. *)
Theorem no_audio_fails_without_encoding w request s pid tokens voice speed :
  In (EvGenerateFromTokens pid tokens voice speed []) (tts_events w request s) ->
  tts_result w request s =
    inl (HTTPException 500
           "Internal server error: 500: No audio segments generated from phonemes") /\
  response_status (tts_response w request s) = 500%Z /\
  no_encoder_run (tts_events w request s).
Proof.
  intros Hin.
  destruct (request_run w request s) as (r & Hrun & _ & Hres).
  destruct (no_audio_run _ _ _ _ _ _ _ _ Hrun Hin) as [-> Henc].
  rewrite tts_response_render, Hres. by repeat split.
Qed.

Lemma no_audio_fails_without_encoding_witness :
  tts_result demo_world demo_request_mute initial_state =
    inl (HTTPException 500
           "Internal server error: 500: No audio segments generated from phonemes") /\
  response_status (tts_response demo_world demo_request_mute initial_state)
    = 500%Z /\
  no_encoder_run (tts_events demo_world demo_request_mute initial_state).
Proof.
  apply (no_audio_fails_without_encoding
           demo_world demo_request_mute initial_state
           0 "ph:mute" "jf_yama" (PyFloat 1 0)).
  vm_compute. tauto.
Defined.

(** C6.  If the encoder invocation fails, that is [subprocess.run] raises
    [CalledProcessError] for a non-zero exit status or raises anything
    else, the handler raises a 500 error whose detail reports the
    conversion error, and the client receives that JSON error and no
    file. *)
Theorem encoder_failure_fails_request w request s cmd e :
  In (EvSubprocessRun cmd (inl e)) (tts_events w request s) ->
  tts_result w request s =
    inl (HTTPException 500
           "Internal server error: 500: Error during audio conversion") /\
  tts_response w request s =
    RespJson 500
      [("detail", "Internal server error: 500: Error during audio conversion")] /\
  (forall file, tts_result w request s <> inr file).
Proof.
  intros Hin.
  destruct (request_run w request s) as (r & Hrun & _ & Hres).
  rewrite (encoder_failed_run _ _ _ _ _ _ Hrun Hin) in Hres.
  rewrite tts_response_render, Hres. by repeat split.
Qed.

Lemma encoder_failure_fails_request_witness :
  tts_result demo_world_encoder_fails demo_request initial_state =
    inl (HTTPException 500
           "Internal server error: 500: Error during audio conversion") /\
  tts_response demo_world_encoder_fails demo_request initial_state =
    RespJson 500
      [("detail", "Internal server error: 500: Error during audio conversion")] /\
  (forall file,
     tts_result demo_world_encoder_fails demo_request initial_state
     <> inr file).
Proof.
  apply (encoder_failure_fails_request
           demo_world_encoder_fails demo_request initial_state
           (ffmpeg_cmd "/tmp/tts_audio/01234567-89ab-4def-8123-456789abcdf0.wav"
                       "/tmp/tts_audio/01234567-89ab-4def-8123-456789abcdf0.ogg")
           (CalledProcessError 1 "ffmpeg: error"
              "Command 'ffmpeg' returned non-zero exit status 1.")).
  vm_compute. tauto.
Defined.

(** [convert_to_ogg] returns [True] exactly when the child process ran and
    exited with status 0; it never raises. *)
Lemma convert_to_ogg_result w wav_path ogg_path s :
  fst (convert_to_ogg w wav_path ogg_path s) =
  inr (if subprocess_run w (length (trace s)) (ffmpeg_cmd wav_path ogg_path)
       is inl _ then false else true).
Proof. by rewrite convert_to_ogg_run. Qed.

(** ** The catch-all clause *)

Lemma surfaced_response r :
  render (surfaced r) =
  match r with
  | inl e =>
      RespJson 500 [("detail", "Internal server error: " +:+ exc_str e)]
  | inr file => RespFile 200 file
  end.
Proof. by destruct r. Qed.

(** C7.  Whatever exception [e] ends the body of the handler (one of its
    own three aborts or anything raised by a collaborator), the handler
    raises [HTTPException(500, "Internal server error: " + str(e))], which
    reaches the client as status 500 with the JSON body
    [{"detail": "Internal server error: <str(e)>"}].  A request answers
    with status 200 or 500 and nothing else. *)
Theorem every_failure_is_a_500 w request s e :
  fst (text_to_speech_body w request s) = inl e ->
  tts_result w request s =
    inl (HTTPException 500 ("Internal server error: " +:+ exc_str e)) /\
  tts_response w request s =
    RespJson 500 [("detail", "Internal server error: " +:+ exc_str e)] /\
  forall w' request' s',
    response_status (tts_response w' request' s') = 200%Z \/
    response_status (tts_response w' request' s') = 500%Z.
Proof.
  intros Hbody.
  destruct (request_run w request s) as (r & _ & Hfst & Hres).
  rewrite Hbody in Hfst. subst r.
  rewrite tts_response_render, Hres. repeat split.
  intros w' request' s'.
  destruct (request_run w' request' s') as (r' & _ & _ & Hres').
  rewrite tts_response_render, Hres', surfaced_response.
  destruct r'; simpl; auto.
Qed.

Lemma every_failure_is_a_500_witness :
  tts_result demo_world demo_request_mute initial_state =
    inl (HTTPException 500
           "Internal server error: 500: No audio segments generated from phonemes") /\
  tts_response demo_world demo_request_mute initial_state =
    RespJson 500
      [("detail",
        "Internal server error: 500: No audio segments generated from phonemes")].
Proof.
  destruct (every_failure_is_a_500 demo_world demo_request_mute initial_state
              (HTTPException 500 "No audio segments generated from phonemes"))
    as (Hres & Hresp & _).
  - vm_compute. reflexivity.
  - split; [exact Hres | exact Hresp].
Defined.

Lemma rewrapped_detail_differs a :
  "Internal server error: " +:+ exc_str (HTTPException 500 (abort_detail a))
  <> abort_detail a.
Proof. by destruct a. Qed.

(** C10.  When a request stops at one of the three abort points (no
    phonemes, no audio segments, encoder failure), the [HTTPException]
    raised there is caught by the handler's own [except Exception] clause
    and replaced by a new 500 error whose detail is
    ["Internal server error: "] followed by [str] of the caught exception;
    the detail the client receives is never the detail written at the
    abort point. *)
Theorem abort_detail_is_rewrapped w request s a :
  aborts_at a (tts_events w request s) ->
  fst (text_to_speech_body w request s) =
    inl (HTTPException 500 (abort_detail a)) /\
  tts_result w request s =
    inl (HTTPException 500
           ("Internal server error: " +:+
            exc_str (HTTPException 500 (abort_detail a)))) /\
  exists detail,
    tts_response w request s = RespJson 500 [("detail", detail)] /\
    detail <> abort_detail a.
Proof.
  intros Habort.
  destruct (request_run w request s) as (r & Hrun & Hfst & Hres).
  rewrite (abort_point_run _ _ _ _ _ Hrun Habort) in Hfst, Hres.
  split; [done|]. split; [done|].
  eexists. rewrite tts_response_render, Hres. split; [reflexivity|].
  apply rewrapped_detail_differs.
Qed.

Lemma abort_detail_is_rewrapped_witness :
  tts_result demo_world_encoder_fails demo_request initial_state =
    inl (HTTPException 500
           "Internal server error: 500: Error during audio conversion").
Proof.
  destruct (abort_detail_is_rewrapped
              demo_world_encoder_fails demo_request initial_state
              EncoderFailure) as (_ & Hres & _).
  - exists (ffmpeg_cmd
              "/tmp/tts_audio/01234567-89ab-4def-8123-456789abcdf0.wav"
              "/tmp/tts_audio/01234567-89ab-4def-8123-456789abcdf0.ogg"),
           (CalledProcessError 1 "ffmpeg: error"
              "Command 'ffmpeg' returned non-zero exit status 1.").
    vm_compute. tauto.
  - exact Hres.
Defined.

(** ** Phonemization and synthesis *)

Lemma first_phonemes_head g : first_phonemes g = first_phonemes (take 1 g).
Proof. by destruct g as [|[r|e] rest]. Qed.

Lemma first_phonemes_yield g ph :
  first_phonemes g = inr (Some ph) <->
  exists r rest,
    g = Yield r :: rest /\ extract_phoneme_string (res_ps r) = inr ph.
Proof.
  unfold first_phonemes. split.
  - destruct g as [|[r|e] rest]; [done| |done].
    destruct (extract_phoneme_string (res_ps r)) as [e|str] eqn:Hps; [done|].
    intros [= ->]. by exists r, rest.
  - intros (r & rest & -> & Hps). by rewrite Hps.
Qed.

Lemma collect_audio_yields batches acc :
  collect_audio (map Yield batches) acc = inr (acc ++ map res_audio batches).
Proof.
  revert acc. induction batches as [|r batches IH]; intros acc; simpl.
  - unfold collect_audio. by rewrite app_nil_r.
  - unfold collect_audio; fold collect_audio.
    rewrite IH. by rewrite <- app_assoc.
Qed.

Ltac in_log := simpl; tauto.

(** The pipeline call in the log of a run, and the synthesis call that
    follows from it. *)
Lemma run_pipeline_call w request evs r pid txt voice speed split g :
  tts_run w request evs r ->
  In (EvPipelineCall pid txt voice speed split g) evs ->
  txt = text request /\ voice = request_voice request /\
  speed = PyInt 1 /\ split = None /\
  (forall pid' tokens voice' speed' g2,
     In (EvGenerateFromTokens pid' tokens voice' speed' g2) evs ->
     first_phonemes g = inr (Some tokens) /\ pid' = pid) /\
  (forall ph,
     first_phonemes g = inr (Some ph) -> ph <> "" ->
     exists g2,
       In (EvGenerateFromTokens pid ph voice (PyFloat 1 0) g2) evs).
Proof.
  intros Hrun Hin.
  invert_run Hrun; find_in_log Hin; injection Hin as ? ? ? ? ? ?; subst;
    do 4 (split; [done|]); split;
    try (intros pid' tokens voice' speed' g2' Hin2; find_in_log Hin2;
         by injection Hin2 as ? ? ? ? ?; subst);
    intros ph' Hfirst Hne;
    try (assert (ph' = ph) as -> by congruence; eexists; in_log);
    try congruence.
  all: rewrite Hfirst in *; simplify_eq; unfold not_phonemes in *;
    by match goal with
       | H : bool_decide _ = true |- _ => apply bool_decide_eq_true in H
       end.
Qed.

(** The synthesis call in the log of a run, and the write that follows. *)
Lemma run_synthesis w request evs r pid tokens voice speed g2 :
  tts_run w request evs r ->
  In (EvGenerateFromTokens pid tokens voice speed g2) evs ->
  voice = request_voice request /\ speed = PyFloat 1 0 /\
  (forall pid' txt voice' speed' split g,
     In (EvPipelineCall pid' txt voice' speed' split g) evs ->
     pid' = pid /\ voice' = voice) /\
  (forall segments,
     collect_audio g2 [] = inr segments -> segments <> [] ->
     exists random outcome,
       In (EvUuid4 random) evs /\
       (forall random', In (EvUuid4 random') evs -> random' = random) /\
       In (write_event w random segments outcome) evs).
Proof.
  intros Hrun Hin.
  invert_run Hrun; find_in_log Hin; injection Hin as ? ? ? ? ?; subst;
    do 2 (split; [done|]);
    (split;
     [ intros pid' txt voice' speed' split' g' Hin2; find_in_log Hin2;
       by injection Hin2 as ? ? ? ? ? ?; subst
     | ]);
    intros segs Hcol Hne;
    try congruence;
    (assert (segs = segments) as -> by congruence);
    exists random; eexists;
    (split; [in_log|]);
    (split; [intros random' Hin3; find_in_log Hin3; by injection Hin3 | in_log]).
Qed.

(** A run that returns a file: the identifier drawn for the request names
    the file written, the two arguments of the encoder and the response. *)
Lemma run_delivered_file w request evs file :
  tts_run w request evs (inr file) ->
  exists random segments,
    In (EvUuid4 random) evs /\
    (forall random', In (EvUuid4 random') evs -> random' = random) /\
    In (write_event w random segments (inr tt)) evs /\
    In (encode_event w random (inr tt)) evs /\
    file = {| fr_path := ogg_path_of w random;
              fr_media_type := "audio/ogg";
              fr_filename := "speech_" +:+ request_id_of random +:+ ".ogg" |}.
Proof.
  intros Hrun. invert_run Hrun; exists random, segments;
    (split; [in_log|]);
    (split; [intros random' Hin3; find_in_log Hin3; by injection Hin3|]);
    (split; [in_log|]); (split; [in_log | done]).
Qed.

(** C2.  The handler calls the pipeline once on the whole text (with the
    resolved voice, [speed=1] and [split_pattern=None]) and reads the
    phoneme string of the first yielded batch only: what it extracts does
    not depend on any later batch, the synthesis call receives exactly that
    string as its tokens, and a non-empty first phoneme string always
    reaches the synthesis call, whatever else the generator would yield. *)
Theorem first_batch_phonemes_feed_synthesis
    w request s pid txt voice speed split g :
  In (EvPipelineCall pid txt voice speed split g) (tts_events w request s) ->
  (txt = text request /\ voice = request_voice request /\
   speed = PyInt 1 /\ split = None) /\
  first_phonemes g = first_phonemes (take 1 g) /\
  (forall pid' tokens voice' speed' g2,
     In (EvGenerateFromTokens pid' tokens voice' speed' g2)
        (tts_events w request s) ->
     exists r rest,
       g = Yield r :: rest /\
       extract_phoneme_string (res_ps r) = inr tokens) /\
  (forall r rest ph,
     g = Yield r :: rest ->
     extract_phoneme_string (res_ps r) = inr ph ->
     ph <> "" ->
     exists g2,
       In (EvGenerateFromTokens pid ph voice (PyFloat 1 0) g2)
          (tts_events w request s)).
Proof.
  intros Hin.
  destruct (request_run w request s) as (r0 & Hrun & _ & _).
  destruct (run_pipeline_call _ _ _ _ _ _ _ _ _ _ Hrun Hin)
    as (Htxt & Hvoice & Hspeed & Hsplit & Htokens & Hsynth).
  split; [done|]. split; [apply first_phonemes_head|]. split.
  - intros pid' tokens voice' speed' g2 Hin2.
    apply first_phonemes_yield. by eapply Htokens.
  - intros r rest ph Hg Hps Hne. apply Hsynth; [|done].
    apply first_phonemes_yield. by exists r, rest.
Qed.

Lemma first_batch_phonemes_feed_synthesis_witness :
  exists g2,
    In (EvGenerateFromTokens 0 "ph:hello" "bf_sunny" (PyFloat 1 0) g2)
       (tts_events demo_world demo_request initial_state).
Proof.
  destruct (first_batch_phonemes_feed_synthesis
              demo_world demo_request initial_state
              0 "hello" "bf_sunny" (PyInt 1) None
              [Yield (demo_batch "ph:hello" [7%Z]);
               Yield (demo_batch "ph:later" [8%Z])])
    as (_ & _ & _ & Hsynth).
  - vm_compute. tauto.
  - apply (Hsynth (demo_batch "ph:hello" [7%Z])
                  [Yield (demo_batch "ph:later" [8%Z])] "ph:hello");
      [reflexivity | reflexivity | discriminate].
Defined.

(** C3.  The synthesis call receives the voice that language resolution
    produced (the one the phonemization call received, on the same
    pipeline) and the speed [1.0].  When its generator yields the batches
    [b1, ..., bn] with [n >= 1], the handler writes the concatenation
    [audio b1 ++ ... ++ audio bn], in that order, with [soundfile.write] at
    sample rate 24000 to [TEMP_DIR/<request_id>.wav], where [request_id] is
    the one identifier drawn for this request. *)
Theorem synthesis_concatenates_and_writes
    w request s pid tokens voice speed g2 :
  In (EvGenerateFromTokens pid tokens voice speed g2)
     (tts_events w request s) ->
  voice = snd (resolve_language (lang request)) /\
  speed = PyFloat 1 0 /\
  (forall pid' txt voice' speed' split g,
     In (EvPipelineCall pid' txt voice' speed' split g)
        (tts_events w request s) ->
     pid' = pid /\ voice' = voice) /\
  (forall batches,
     yields g2 batches ->
     batches <> [] ->
     exists random outcome,
       In (EvUuid4 random) (tts_events w request s) /\
       (forall random',
          In (EvUuid4 random') (tts_events w request s) -> random' = random) /\
       In (EvSfWrite
             (os_path_join (TEMP_DIR w)
                           (uuid_str (uuid4_int random) +:+ ".wav"))
             (concat (map res_audio batches)) 24000 outcome)
          (tts_events w request s)).
Proof.
  intros Hin.
  destruct (request_run w request s) as (r0 & Hrun & _ & _).
  destruct (run_synthesis _ _ _ _ _ _ _ _ _ Hrun Hin)
    as (Hvoice & Hspeed & Hsame & Hwrite).
  split; [done|]. split; [done|]. split; [done|].
  intros batches Hyields Hne.
  apply (Hwrite (map res_audio batches)).
  - rewrite Hyields. apply collect_audio_yields.
  - by destruct batches.
Qed.

Lemma synthesis_concatenates_and_writes_witness :
  exists random outcome,
    In (EvSfWrite
          (os_path_join (TEMP_DIR demo_world)
                        (uuid_str (uuid4_int random) +:+ ".wav"))
          [10; 20; 30]%Z 24000 outcome)
       (tts_events demo_world demo_request initial_state).
Proof.
  destruct (synthesis_concatenates_and_writes
              demo_world demo_request initial_state
              0 "ph:hello" "bf_sunny" (PyFloat 1 0)
              [Yield (demo_batch "ph:hello" [10; 20]%Z);
               Yield (demo_batch "ph:hello" [30]%Z)])
    as (_ & _ & _ & Hwrite).
  - vm_compute. tauto.
  - destruct (Hwrite [demo_batch "ph:hello" [10; 20]%Z;
                      demo_batch "ph:hello" [30]%Z])
      as (random & outcome & _ & _ & Hin); [reflexivity | discriminate |].
    by exists random, outcome.
Defined.

(** ** The request identifier *)

Section Uuid.

Local Open Scope Z_scope.

Lemma hex_digit_is_hex d : 0 <= d < 16 -> is_hex_char (hex_digit d) = true.
Proof.
  intros Hd.
  assert (Hcases : In d (map Z.of_nat (seq 0 16))).
  { apply in_map_iff. exists (Z.to_nat d). split; [lia|]. apply in_seq. lia. }
  simpl in Hcases. intuition (subst; reflexivity).
Qed.

(** [UUID.__str__] always has the 8-4-4-4-12 shape. *)
Lemma uuid_str_syntax i : uuid_syntax_ok (uuid_str i) = true.
Proof.
  unfold uuid_str.
  cbv beta iota zeta delta
    [hex_fixed String.append String.substring uuid_syntax_ok hex_run dash_then].
  rewrite !hex_digit_is_hex by (apply Z.mod_pos_bound; lia).
  reflexivity.
Qed.

Lemma nested_div16 i k : 
  Nat.iter k (fun x => x / 16) i = Z.shiftr i (4 * Z.of_nat k).
Proof.
  induction k as [|k IH].
  - simpl. by rewrite Z.shiftr_0_r.
  - rewrite Nat.iter_succ, IH.
    replace (4 * Z.of_nat (S k)) with (4 * Z.of_nat k + 4) by lia.
    rewrite <- Z.shiftr_shiftr by lia.
    by rewrite (Z.shiftr_div_pow2 _ 4) by lia.
Qed.

Lemma nibble_land x : x mod 16 = Z.land x 15.
Proof. change 15 with (Z.ones 4). symmetry. apply Z.land_ones. lia. Qed.

Lemma testbit_15_high n : 4 <= n -> Z.testbit 15 n = false.
Proof. intros. apply (Z.ones_spec_high 4 n). lia. Qed.

Lemma small_index (n : Z) : 0 <= n < 4 -> n = 0 \/ n = 1 \/ n = 2 \/ n = 3.
Proof. lia. Qed.

(** Bits 76 to 79 of a version 4 UUID hold the version. *)
Lemma uuid4_version_nibble random :
  Z.land (Z.shiftr (uuid4_int random) 76) 15 = 4.
Proof.
  apply Z.bits_inj'. intros n Hn.
  rewrite Z.land_spec, Z.shiftr_spec by lia.
  destruct (Z.lt_ge_cases n 4) as [Hlt|Hge].
  - unfold uuid4_int. cbv zeta.
    rewrite Z.lor_spec, Z.land_spec, Z.lor_spec, Z.land_spec.
    destruct (small_index n) as [-> | [-> | [-> | ->]]]; [lia|..];
      cbn; by rewrite ?andb_false_r, ?andb_true_r, ?orb_true_r, ?orb_false_r.
  - rewrite testbit_15_high, andb_false_r by lia.
    symmetry. apply (Z.bits_above_log2 4 n); [lia|]. cbn. lia.
Qed.

Lemma nibble_range x : 0 <= Z.land x 15 < 16.
Proof. rewrite <- nibble_land. apply Z.mod_pos_bound. lia. Qed.

(** Bits 62 and 63 of a version 4 UUID hold the variant [10]. *)
Lemma uuid4_variant_nibble random :
  8 <= Z.land (Z.shiftr (uuid4_int random) 60) 15 < 12.
Proof.
  set (v := Z.land (Z.shiftr (uuid4_int random) 60) 15).
  assert (Hhigh : Z.testbit v 3 = true).
  { subst v. rewrite Z.land_spec, Z.shiftr_spec by lia.
    unfold uuid4_int. cbv zeta.
    rewrite Z.lor_spec, Z.land_spec, Z.lor_spec, Z.land_spec.
    cbn. by rewrite ?andb_false_r, ?andb_true_r, ?orb_true_r, ?orb_false_r. }
  assert (Hlow : Z.testbit v 2 = false).
  { subst v. rewrite Z.land_spec, Z.shiftr_spec by lia.
    unfold uuid4_int. cbv zeta.
    rewrite Z.lor_spec, Z.land_spec, Z.lor_spec, Z.land_spec.
    cbn. by rewrite ?andb_false_r, ?andb_true_r, ?orb_true_r, ?orb_false_r. }
  assert (Hrange : 0 <= v < 16) by apply nibble_range.
  assert (Hcases : In v (map Z.of_nat (seq 0 16))).
  { apply in_map_iff. exists (Z.to_nat v). split; [lia|]. apply in_seq. lia. }
  clearbody v. simpl in Hcases.
  intuition (subst; try discriminate; lia).
Qed.

Lemma uuid4_version_digit random :
  hex_digit (Nat.iter 19 (fun x => x / 16) (uuid4_int random) mod 16)
  = "4"%char.
Proof.
  by rewrite nested_div16, nibble_land, uuid4_version_nibble.
Qed.

Lemma uuid4_variant_digit random :
  hex_digit (Nat.iter 15 (fun x => x / 16) (uuid4_int random) mod 16)
  ∈ ["8"%char; "9"%char; "a"%char; "b"%char].
Proof.
  rewrite nested_div16, nibble_land.
  pose proof (uuid4_variant_nibble random) as Hv. simpl Z.mul.
  set (v := Z.land _ 15) in *. clearbody v.
  assert (Hcases : v = 8 \/ v = 9 \/ v = 10 \/ v = 11) by lia.
  clear Hv. destruct Hcases as [-> | [-> | [-> | ->]]]; cbn; set_solver.
Qed.

Lemma uuid4_str_version random :
  uuid_version4_ok (uuid_str (uuid4_int random)) = true.
Proof.
  pose proof (uuid4_version_digit random) as Hversion.
  pose proof (uuid4_variant_digit random) as Hvariant.
  cbv beta iota delta [Nat.iter nat_rect] in Hversion, Hvariant.
  unfold uuid_str, uuid_version4_ok.
  cbv beta iota zeta delta [hex_fixed String.append String.substring String.get].
  rewrite Hversion.
  rewrite bool_decide_eq_true_2 by done.
  by rewrite bool_decide_eq_true_2.
Qed.

End Uuid.

(** C8.  A request that completes returns the file
    [TEMP_DIR/<request_id>.ogg] with media type [audio/ogg] and filename
    [speech_<request_id>.ogg], sent with status 200.  [request_id] is the
    string form of the one version 4 UUID drawn during this request; it has
    the 8-4-4-4-12 hexadecimal shape with version digit 4 and variant digit
    8, 9, a or b, and the same identifier names the WAV file written and
    both paths given to the encoder. *)
Theorem delivered_file_is_named_by_request_id w request s file :
  tts_result w request s = inr file ->
  exists random,
    let request_id := uuid_str (uuid4_int random) in
    let wav_path := os_path_join (TEMP_DIR w) (request_id +:+ ".wav") in
    let ogg_path := os_path_join (TEMP_DIR w) (request_id +:+ ".ogg") in
    In (EvUuid4 random) (tts_events w request s) /\
    (forall random',
       In (EvUuid4 random') (tts_events w request s) -> random' = random) /\
    uuid_syntax_ok request_id = true /\
    uuid_version4_ok request_id = true /\
    tts_response w request s = RespFile 200 file /\
    fr_media_type file = "audio/ogg" /\
    fr_filename file = "speech_" +:+ request_id +:+ ".ogg" /\
    fr_path file = ogg_path /\
    (exists data,
       In (EvSfWrite wav_path data 24000 (inr tt)) (tts_events w request s)) /\
    In (EvSubprocessRun (ffmpeg_cmd wav_path ogg_path) (inr tt))
       (tts_events w request s).
Proof.
  intros Hfile.
  destruct (request_run w request s) as (r & Hrun & _ & Hres).
  rewrite Hfile in Hres. destruct r as [e|file']; [done|].
  injection Hres as ->.
  destruct (run_delivered_file _ _ _ _ Hrun)
    as (random & segments & Huuid & Hone & Hwrite & Hencode & ->).
  exists random. cbv zeta.
  split; [done|]. split; [done|].
  split; [apply uuid_str_syntax|]. split; [apply uuid4_str_version|].
  split; [by rewrite tts_response_render, Hfile|].
  do 3 (split; [done|]).
  split; [by exists (np_concatenate segments) | done].
Qed.

Lemma delivered_file_is_named_by_request_id_witness :
  exists random,
    uuid_str (uuid4_int random) = "01234567-89ab-4def-8123-456789abcdf0" /\
    tts_response demo_world demo_request initial_state =
      RespFile 200
        {| fr_path := "/tmp/tts_audio/01234567-89ab-4def-8123-456789abcdf0.ogg";
           fr_media_type := "audio/ogg";
           fr_filename := "speech_01234567-89ab-4def-8123-456789abcdf0.ogg" |}.
Proof.
  destruct (delivered_file_is_named_by_request_id
              demo_world demo_request initial_state
              {| fr_path :=
                   "/tmp/tts_audio/01234567-89ab-4def-8123-456789abcdf0.ogg";
                 fr_media_type := "audio/ogg";
                 fr_filename :=
                   "speech_01234567-89ab-4def-8123-456789abcdf0.ogg" |})
    as (random & Huuid & Hone & _ & _ & Hresp & _).
  - vm_compute. reflexivity.
  - exists random. split; [|exact Hresp].
    rewrite <- (Hone 0x0123456789abcdef0123456789abcdf0%Z).
    + vm_compute. reflexivity.
    + vm_compute. tauto.
Defined.

(** ** The pipeline cache *)

Lemma get_pipeline_cache_grows w lang_code s :
  pipelines s ⊆ pipelines (snd (get_pipeline w lang_code s)).
Proof.
  destruct (get_pipeline_cases w lang_code s)
    as [(p & _ & ->) | [(e & _ & _ & ->) | (p & Hnone & _ & ->)]];
    simpl; [done | done | by apply insert_subseteq].
Qed.

Lemma text_to_speech_cache_grows w request s :
  pipelines s ⊆ pipelines (snd (text_to_speech w request s)).
Proof.
  destruct (tts_body_run w request s) as (evs & pl & r & Hbody & _ & Hsub).
  unfold text_to_speech, try_except. rewrite Hbody. by destruct r.
Qed.

Lemma run_ops_cache_grows w ops s :
  pipelines s ⊆ pipelines (run_ops w ops s).
Proof.
  unfold run_ops. revert s. induction ops as [|op ops IH]; intros s; [done|].
  simpl. etrans; [|apply IH].
  destruct op; [apply get_pipeline_cache_grows | apply text_to_speech_cache_grows].
Qed.

Lemma get_pipeline_hit w lang_code s p :
  pipelines s !! lang_code = Some p ->
  get_pipeline w lang_code s = (inr p, s).
Proof.
  intros Hlook.
  destruct (get_pipeline_cases w lang_code s)
    as [(p' & Hp' & ->) | [(e & Hnone & _) | (p' & Hnone & _)]]; congruence.
Qed.

(** C9.  [pipelines] is one map for the whole process, from language code
    to pipeline instance, and entries are only ever added.  A
    [get_pipeline] call for a code that is not in the map constructs an
    instance, stores it under the code and returns it; after that, and
    after any further [get_pipeline] calls and requests, a [get_pipeline]
    call for the same code returns that stored instance and leaves the map
    and the log as they were, so nothing is constructed.  No use of the
    process removes or replaces an entry. *)
Theorem pipeline_cache_insert_only w lang_code s p :
  pipelines s !! lang_code = None ->
  KPipeline_init w (length (trace s)) lang_code = inr p ->
  get_pipeline w lang_code s =
    (inr p, {| pipelines := <[lang_code := p]> (pipelines s);
               trace := trace s ++ [EvKPipelineInit lang_code (inr p)] |}) /\
  (forall ops,
     let s' := run_ops w ops (snd (get_pipeline w lang_code s)) in
     get_pipeline w lang_code s' = (inr p, s')) /\
  (forall ops s0, pipelines s0 ⊆ pipelines (run_ops w ops s0)).
Proof.
  intros Hnone Hinit.
  assert (Hfirst : get_pipeline w lang_code s =
    (inr p, {| pipelines := <[lang_code := p]> (pipelines s);
               trace := trace s ++ [EvKPipelineInit lang_code (inr p)] |})).
  { destruct (get_pipeline_cases w lang_code s)
      as [(p' & Hp' & _) | [(e & _ & He & _) | (p' & _ & Hp' & ->)]];
      congruence. }
  split; [done|]. split; [|apply run_ops_cache_grows].
  intros ops s'. apply get_pipeline_hit.
  eapply lookup_weaken; [|apply run_ops_cache_grows].
  rewrite Hfirst. simpl. apply lookup_insert_eq.
Qed.

Lemma pipeline_cache_insert_only_witness :
  fst (get_pipeline demo_world "b"
         (run_ops demo_world
                  [OpRequest demo_request_empty; OpGetPipeline "j";
                   OpRequest demo_request]
                  (snd (get_pipeline demo_world "b" initial_state))))
  = inr (demo_pipeline 0).
Proof.
  destruct (pipeline_cache_insert_only
              demo_world "b" initial_state (demo_pipeline 0))
    as (_ & Hlater & _).
  - reflexivity.
  - reflexivity.
  - by rewrite (Hlater [OpRequest demo_request_empty; OpGetPipeline "j";
                        OpRequest demo_request]).
Defined.

(** ** Language resolution *)

Lemma resolve_language_spec tag : resolve_language tag = spec_resolve tag.
Proof.
  unfold resolve_language, spec_resolve. generalize (lower tag) as l. intros l.
  destruct (decide (l = "en")) as [->|Hen]; [reflexivity|].
  destruct (decide (l = "gb")) as [->|Hgb]; [reflexivity|].
  destruct (decide (l = "es")) as [->|Hes]; [reflexivity|].
  destruct (decide (l = "ja")) as [->|Hja]; [reflexivity|].
  destruct (decide (l = "zh")) as [->|Hzh]; [reflexivity|].
  unfold lang_code_map. rewrite !lookup_insert_ne, lookup_empty by done.
  unfold spec_language_table, assoc.
  by rewrite !(proj2 (String.eqb_neq l _)) by done.
Qed.

Lemma assoc_not_in {V} k (table : list (string * V)) :
  k ∉ map fst table -> assoc k table = None.
Proof.
  induction table as [|[k' v] table IH]; [done|]. simpl.
  intros Hnot. apply not_elem_of_cons in Hnot as [Hne Hnot].
  rewrite (proj2 (String.eqb_neq k k')) by done. by apply IH.
Qed.

Lemma run_init_code w request evs r lang_code outcome :
  tts_run w request evs r ->
  In (EvKPipelineInit lang_code outcome) evs ->
  lang_code = request_lang_code request.
Proof.
  intros Hrun Hin. invert_run Hrun; find_in_log Hin; by injection Hin.
Qed.

(** C1.  Language resolution lower-cases the tag and looks it up in the
    fixed table en -> (a, af_heart), gb -> (b, bf_sunny),
    es -> (e, em_alex), ja -> (j, jf_yama), zh -> (z, zf_xiaobei); two tags
    that differ only in case resolve alike, and a tag whose lower case is
    none of the five resolves to (a, af_heart).  Every request uses the pair
    so resolved: the pipeline it may construct is the one of the model code
    and the pipeline is called with the voice. *)
Theorem language_resolution_follows_table tag :
  resolve_language tag = spec_resolve tag /\
  (forall tag',
     lower tag' = lower tag -> resolve_language tag' = resolve_language tag) /\
  (lower tag ∉ supported_tags -> resolve_language tag = ("a", "af_heart")) /\
  (forall w text s,
     let request := {| text := text; lang := tag |} in
     (forall lang_code outcome,
        In (EvKPipelineInit lang_code outcome) (tts_events w request s) ->
        lang_code = fst (spec_resolve tag)) /\
     (forall pid txt voice speed split g,
        In (EvPipelineCall pid txt voice speed split g)
           (tts_events w request s) ->
        voice = snd (spec_resolve tag))).
Proof.
  split; [apply resolve_language_spec|]. split; [|split].
  - intros tag' Hlower. unfold resolve_language. by rewrite Hlower.
  - intros Hnot. rewrite resolve_language_spec. unfold spec_resolve.
    by rewrite assoc_not_in.
  - intros w txt0 s request.
    destruct (request_run w request s) as (r & Hrun & _ & _).
    rewrite <- resolve_language_spec. split.
    + intros lang_code outcome Hin.
      by rewrite (run_init_code _ _ _ _ _ _ Hrun Hin).
    + intros pid txt voice speed split g Hin.
      by destruct (run_pipeline_call _ _ _ _ _ _ _ _ _ _ Hrun Hin)
        as (_ & -> & _).
Qed.

Lemma language_resolution_follows_table_witness :
  resolve_language "Zh" = ("z", "zf_xiaobei") /\
  resolve_language "ZH" = resolve_language "zh" /\
  resolve_language "fr" = ("a", "af_heart").
Proof.
  split; [|split].
  - destruct (language_resolution_follows_table "Zh") as (-> & _).
    reflexivity.
  - destruct (language_resolution_follows_table "zh") as (_ & Hcase & _).
    apply Hcase. reflexivity.
  - destruct (language_resolution_follows_table "fr") as (_ & _ & Hother & _).
    apply Hother.
    apply (bool_decide_eq_false_1 (lower "fr" ∈ supported_tags)). reflexivity.
Defined.

(** * Further properties of the code *)

(** ** [get_pipeline]: errors and framing *)

(** X1.  When the constructor raises, [get_pipeline] raises the same
    exception, the map is unchanged and the log gains the one failed
    construction: a failure is not cached, and the next call for the code
    constructs again (and stores the instance if that succeeds). *)
Theorem failed_construction_is_not_cached w lang_code s e :
  pipelines s !! lang_code = None ->
  KPipeline_init w (length (trace s)) lang_code = inl e ->
  let s' := snd (get_pipeline w lang_code s) in
  fst (get_pipeline w lang_code s) = inl e /\
  pipelines s' = pipelines s /\
  trace s' = trace s ++ [EvKPipelineInit lang_code (inl e)] /\
  (forall p,
     KPipeline_init w (length (trace s')) lang_code = inr p ->
     fst (get_pipeline w lang_code s') = inr p /\
     pipelines (snd (get_pipeline w lang_code s')) !! lang_code = Some p).
Proof.
  intros Hnone Hinit.
  destruct (get_pipeline_cases w lang_code s)
    as [(p & Hp & _) | [(e' & _ & He' & Hget) | (p & _ & Hp & _)]];
    [congruence | | congruence].
  assert (e' = e) as -> by congruence.
  rewrite Hget. cbv zeta. cbn [fst snd]. do 3 (split; [done|]).
  intros p Hretry.
  destruct (get_pipeline_cases w lang_code
              (log (EvKPipelineInit lang_code (inl e)) s))
    as [(p' & Hp' & _) | [(e2 & _ & He2 & _) | (p' & _ & Hp' & ->)]].
  - change (pipelines s !! lang_code = Some p') in Hp'. congruence.
  - congruence.
  - assert (p' = p) as -> by congruence. cbn [fst snd pipelines].
    split; [done | apply lookup_insert_eq].
Qed.

Lemma failed_construction_is_not_cached_witness :
  fst (get_pipeline demo_world_flaky "a" initial_state) =
    inl (OtherException "RuntimeError" "model download failed") /\
  fst (get_pipeline demo_world_flaky "a"
         (snd (get_pipeline demo_world_flaky "a" initial_state))) =
    inr (demo_pipeline 1).
Proof.
  destruct (failed_construction_is_not_cached
              demo_world_flaky "a" initial_state
              (OtherException "RuntimeError" "model download failed"))
    as (Hfail & _ & _ & Hretry); [reflexivity | reflexivity |].
  split; [exact Hfail|].
  destruct (Hretry (demo_pipeline 1)) as [Hok _]; [reflexivity | exact Hok].
Defined.

Lemma get_pipeline_other_keys w lang_code s other :
  other <> lang_code ->
  pipelines (snd (get_pipeline w lang_code s)) !! other = pipelines s !! other.
Proof.
  intros Hne.
  destruct (get_pipeline_cases w lang_code s)
    as [(p & _ & ->) | [(e & _ & _ & ->) | (p & _ & _ & ->)]];
    simpl; [done | done | by rewrite lookup_insert_ne].
Qed.

(** X2.  [get_pipeline lang_code] changes the map at no other key; what it
    returns is what the map holds for [lang_code] afterwards; and when it
    raises, the code was absent and stays absent (so the subscript at the
    end of the function never raises on its own). *)
Theorem get_pipeline_frame w lang_code s :
  (forall other,
     other <> lang_code ->
     pipelines (snd (get_pipeline w lang_code s)) !! other
     = pipelines s !! other) /\
  match fst (get_pipeline w lang_code s) with
  | inr p => pipelines (snd (get_pipeline w lang_code s)) !! lang_code = Some p
  | inl e =>
      pipelines s !! lang_code = None /\
      pipelines (snd (get_pipeline w lang_code s)) !! lang_code = None /\
      KPipeline_init w (length (trace s)) lang_code = inl e
  end.
Proof.
  destruct (get_pipeline_cases w lang_code s)
    as [(p & Hp & ->) | [(e & Hnone & He & ->) | (p & Hnone & Hp & ->)]];
    simpl; (split; [intros other Hne|]); try done.
  - by rewrite lookup_insert_ne.
  - apply lookup_insert_eq.
Qed.

Lemma get_pipeline_frame_witness :
  pipelines (snd (get_pipeline demo_world "j"
                    (snd (get_pipeline demo_world "a" initial_state)))) !! "a"
  = Some (demo_pipeline 0).
Proof.
  destruct (get_pipeline_frame demo_world "j"
              (snd (get_pipeline demo_world "a" initial_state)))
    as [Hframe _].
  rewrite (Hframe "a"); [reflexivity | discriminate].
Defined.

(** ** Computations that leave the cache alone *)

Lemma quiet_ret {A} (a : A) : quiet (ret a).
Proof. intros s. split; [done|]. exists []. by rewrite app_nil_r. Qed.

Lemma quiet_raise {A} e : quiet (@raise A e).
Proof. intros s. split; [done|]. exists []. by rewrite app_nil_r. Qed.

Lemma quiet_lift {A} (r : PyExc + A) : quiet (lift r).
Proof. intros s. split; [done|]. exists []. by rewrite app_nil_r. Qed.

Lemma quiet_bind {A B} (m : M A) (k : A -> M B) :
  quiet m -> (forall a, quiet (k a)) -> quiet (bind m k).
Proof.
  intros Hm Hk s. unfold bind.
  destruct (Hm s) as (Hpl & evs & Htr & Hevs).
  destruct (m s) as [[e|a] s1]; simpl in *.
  - split; [done|]. by exists evs.
  - destruct (Hk a s1) as (Hpl2 & evs2 & Htr2 & Hevs2).
    split; [congruence|]. exists (evs ++ evs2).
    rewrite Htr2, Htr, <- app_assoc. split; [done|]. by apply Forall_app.
Qed.

Lemma quiet_try_except {A} (m : M A) (h : PyExc -> M A) :
  quiet m -> (forall e, quiet (h e)) -> quiet (try_except m h).
Proof.
  intros Hm Hh s. unfold try_except.
  destruct (Hm s) as (Hpl & evs & Htr & Hevs).
  destruct (m s) as [[e|a] s1]; simpl in *.
  - destruct (Hh e s1) as (Hpl2 & evs2 & Htr2 & Hevs2).
    split; [congruence|]. exists (evs ++ evs2).
    rewrite Htr2, Htr, <- app_assoc. split; [done|]. by apply Forall_app.
  - split; [done|]. by exists evs.
Qed.

Lemma quiet_external {A} (oracle : nat -> PyExc + A) ev :
  (forall r, is_init_event (ev r) = false) -> quiet (external oracle ev).
Proof.
  intros Hev s. unfold external. simpl. split; [done|].
  eexists. split; [done|]. by repeat constructor.
Qed.

Lemma quiet_uuid4_str w : quiet (uuid4_str w).
Proof.
  intros s. unfold uuid4_str, log. simpl. split; [done|].
  eexists. split; [done|]. by repeat constructor.
Qed.

Lemma quiet_call_pipeline p txt voice speed split :
  quiet (call_pipeline p txt voice speed split).
Proof.
  intros s. unfold call_pipeline, log. simpl. split; [done|].
  eexists. split; [done|]. by repeat constructor.
Qed.

Lemma quiet_generate_from_tokens p tokens voice speed :
  quiet (generate_from_tokens p tokens voice speed).
Proof.
  intros s. unfold generate_from_tokens, log. simpl. split; [done|].
  eexists. split; [done|]. by repeat constructor.
Qed.

Lemma quiet_convert_to_ogg w wav_path ogg_path :
  quiet (convert_to_ogg w wav_path ogg_path).
Proof.
  apply quiet_try_except.
  - apply quiet_bind; [by apply quiet_external | intros; apply quiet_ret].
  - intros []; apply quiet_ret.
Qed.

Lemma quiet_synthesize_and_deliver w p voice request_id wav ogg phonemes :
  quiet (synthesize_and_deliver w p voice request_id wav ogg phonemes).
Proof.
  unfold synthesize_and_deliver.
  apply quiet_bind; [apply quiet_generate_from_tokens | intros g].
  apply quiet_bind; [apply quiet_lift | intros [|seg segs]].
  - apply quiet_raise.
  - apply quiet_bind; [by apply quiet_external | intros _].
    apply quiet_bind; [apply quiet_convert_to_ogg | intros []]; simpl;
      [apply quiet_ret | apply quiet_raise].
Qed.

(** A request changes the state as its [get_pipeline] call does, and then
    only extends the log, by entries that are not constructions. *)
Lemma text_to_speech_state w request s :
  let s1 := snd (get_pipeline w (request_lang_code request) s) in
  pipelines (snd (text_to_speech w request s)) = pipelines s1 /\
  exists tail,
    trace (snd (text_to_speech w request s)) = trace s1 ++ tail /\
    Forall (fun ev => is_init_event ev = false) tail.
Proof.
  cbv zeta.
  assert (Hsplit : exists K : KPipeline -> M FileResponse,
    (forall p, quiet (K p)) /\
    text_to_speech w request s =
    match get_pipeline w (request_lang_code request) s with
    | (inl e, s1) => (inl (internal_server_error e), s1)
    | (inr p, s1) => K p s1
    end).
  { unfold text_to_speech. rewrite text_to_speech_body_unfold.
    match goal with
    | |- context [bind (get_pipeline _ _) ?k] => set (K := k)
    end.
    exists (fun p => try_except (K p)
                       (fun e => raise (internal_server_error e))).
    split.
    - intros p. apply quiet_try_except; [|intros; apply quiet_raise].
      subst K. cbv beta.
      apply quiet_bind; [apply quiet_uuid4_str | intros request_id].
      cbv zeta.
      apply quiet_bind; [by apply quiet_call_pipeline | intros g].
      apply quiet_bind; [apply quiet_lift | intros phonemes].
      destruct (not_phonemes phonemes);
        [apply quiet_raise | apply quiet_synthesize_and_deliver].
    - unfold try_except at 1, bind at 1.
      by destruct (get_pipeline w (request_lang_code request) s) as [[e|p] s1]. }
  destruct Hsplit as (K & HK & ->).
  destruct (get_pipeline w (request_lang_code request) s) as [[e|p] s1].
  - simpl. split; [done|]. exists []. by rewrite app_nil_r.
  - apply HK.
Qed.

(** ** The cache and the log agree *)

Lemma new_events_trace s s' evs :
  trace s' = trace s ++ evs -> new_events s s' = evs.
Proof. intros Htr. unfold new_events. rewrite Htr. apply drop_app_length. Qed.

Lemma filter_constructed_no_init lang_code evs :
  Forall (fun ev => is_init_event ev = false) evs ->
  List.filter (constructed lang_code) evs = [].
Proof.
  induction 1 as [|ev evs Hev _ IH]; [done|]. simpl. rewrite IH.
  by destruct ev.
Qed.

Lemma get_pipeline_keeps_match w lang_code s :
  cache_matches_log s -> cache_matches_log (snd (get_pipeline w lang_code s)).
Proof.
  intros Hs c.
  destruct (get_pipeline_cases w lang_code s)
    as [(p & Hp & ->) | [(e & Hnone & He & ->) | (p & Hnone & Hp & ->)]];
    simpl; [apply Hs | |].
  - rewrite List.filter_app. simpl. rewrite app_nil_r. apply Hs.
  - rewrite List.filter_app, (Hs c). simpl.
    destruct (String.eqb_spec c lang_code) as [->|Hne].
    + by rewrite lookup_insert_eq, Hnone.
    + rewrite lookup_insert_ne by done. by rewrite app_nil_r.
Qed.

Lemma text_to_speech_keeps_match w request s :
  cache_matches_log s -> cache_matches_log (snd (text_to_speech w request s)).
Proof.
  intros Hs c.
  destruct (text_to_speech_state w request s) as (-> & tail & -> & Htail).
  rewrite List.filter_app, (filter_constructed_no_init _ _ Htail), app_nil_r.
  by apply get_pipeline_keeps_match.
Qed.

Lemma run_ops_keeps_match w ops s :
  cache_matches_log s -> cache_matches_log (run_ops w ops s).
Proof.
  unfold run_ops. revert s. induction ops as [|op ops IH]; intros s Hs; [done|].
  simpl. apply IH.
  destruct op; [by apply get_pipeline_keeps_match
               | by apply text_to_speech_keeps_match].
Qed.

(** X3.  Over any sequence of [get_pipeline] calls and requests the map and
    the log stay in step: the log shows at most one successful construction
    per language code, and the map holds an instance for a code exactly
    when the log shows that instance being constructed for it. *)
Theorem cache_agrees_with_log w ops s0 lang_code :
  cache_matches_log s0 ->
  let s := run_ops w ops s0 in
  length (List.filter (constructed lang_code) (trace s)) <= 1 /\
  (forall p,
     pipelines s !! lang_code = Some p <->
     In (EvKPipelineInit lang_code (inr p)) (trace s)).
Proof.
  intros Hs0 s.
  pose proof (run_ops_keeps_match w ops s0 Hs0 lang_code) as Hs.
  fold s in Hs. split.
  - rewrite Hs. destruct (pipelines s !! lang_code); simpl; lia.
  - intros p.
    assert (Hin : In (EvKPipelineInit lang_code (inr p)) (trace s) <->
                  In (EvKPipelineInit lang_code (inr p))
                     (List.filter (constructed lang_code) (trace s))).
    { rewrite List.filter_In. simpl. rewrite String.eqb_refl. tauto. }
    rewrite Hin, Hs.
    destruct (pipelines s !! lang_code) as [p'|]; simpl; split.
    + intros [= ->]. by left.
    + intros [[= ->]|[]]. done.
    + done.
    + done.
Qed.

Lemma cache_agrees_with_log_witness :
  let s := run_ops demo_world_flaky
             [OpRequest demo_request; OpGetPipeline "b"; OpRequest demo_request]
             initial_state in
  length (List.filter (constructed "b") (trace s)) <= 1.
Proof.
  apply (cache_agrees_with_log demo_world_flaky
           [OpRequest demo_request; OpGetPipeline "b"; OpRequest demo_request]
           initial_state "b").
  intros c. reflexivity.
Defined.

(** ** Reuse across requests *)

Lemma request_lang_code_lower request1 request2 :
  lower (lang request1) = lower (lang request2) ->
  request_lang_code request1 = request_lang_code request2.
Proof.
  intros Hlower. unfold request_lang_code, resolve_language.
  by rewrite Hlower.
Qed.

(** X4.  A request whose language tag has the same lower case as that of
    the request before it, and whose predecessor did not fail in the
    constructor, constructs no pipeline and leaves the map as it was: the
    instance is reused, also after a predecessor that failed later on. *)
Theorem same_language_reuses_pipeline w request1 request2 s :
  lower (lang request1) = lower (lang request2) ->
  (forall e,
     ~ In (EvKPipelineInit (request_lang_code request1) (inl e))
          (tts_events w request1 s)) ->
  let s1 := snd (text_to_speech w request1 s) in
  Forall (fun ev => is_init_event ev = false) (tts_events w request2 s1) /\
  pipelines (snd (text_to_speech w request2 s1)) = pipelines s1.
Proof.
  intros Hlower Hok s1.
  assert (Hcached : is_Some (pipelines s1 !! request_lang_code request2)).
  { rewrite <- (request_lang_code_lower _ _ Hlower). subst s1.
    destruct (text_to_speech_state w request1 s) as (Hpl & tail & Htr & _).
    rewrite Hpl.
    destruct (get_pipeline_cases w (request_lang_code request1) s)
      as [(p & Hp & Hget) | [(e & _ & _ & Hget) | (p & _ & _ & Hget)]];
      rewrite Hget in *; simpl in *.
    - by exists p.
    - exfalso. apply (Hok e). unfold tts_events.
      rewrite (new_events_trace _ _
                 (EvKPipelineInit (request_lang_code request1) (inl e) :: tail)).
      + by left.
      + rewrite Htr. by rewrite <- app_assoc.
    - exists p. apply lookup_insert_eq. }
  destruct Hcached as [p Hp].
  destruct (text_to_speech_state w request2 s1) as (Hpl & tail & Htr & Htail).
  rewrite (get_pipeline_hit _ _ _ _ Hp) in Hpl, Htr. simpl in Hpl, Htr.
  split; [|done]. unfold tts_events. by rewrite (new_events_trace _ _ tail).
Qed.

Lemma same_language_reuses_pipeline_witness :
  Forall (fun ev => is_init_event ev = false)
         (tts_events demo_world {| text := "again"; lang := "gb" |}
                     (snd (text_to_speech demo_world demo_request
                                          initial_state))).
Proof.
  apply (same_language_reuses_pipeline
           demo_world demo_request {| text := "again"; lang := "gb" |}
           initial_state).
  - reflexivity.
  - intros e Hin. vm_compute in Hin.
    repeat (destruct Hin as [Hin|Hin]; [discriminate Hin|]). exact Hin.
Defined.

(** ** The range of language resolution *)

Lemma resolve_language_range tag :
  In (fst (resolve_language tag)) model_codes /\
  voice_map !! fst (resolve_language tag) = Some (snd (resolve_language tag)) /\
  In (resolve_language tag) (map snd spec_language_table).
Proof.
  rewrite resolve_language_spec. unfold spec_resolve.
  generalize (lower tag) as l. intros l.
  unfold spec_language_table, assoc.
  repeat (destruct (String.eqb l _);
          [split; [|split]; [simpl; tauto | reflexivity | simpl; tauto] |]).
  split; [|split]; [simpl; tauto | reflexivity | simpl; tauto].
Qed.

(** X5.  Whatever the tag, the resolved model code is one of a, b, e, j, z
    and the resolved voice is the entry of [voice_map] for that code: the
    default of the second [dict.get] is never used, and code and voice
    always belong together. *)
Theorem resolved_pair_is_consistent tag :
  In (fst (resolve_language tag)) model_codes /\
  voice_map !! fst (resolve_language tag) = Some (snd (resolve_language tag)) /\
  In (resolve_language tag) (map snd spec_language_table).
Proof. apply resolve_language_range. Qed.

Lemma request_lang_code_is_model_code request :
  In (request_lang_code request) model_codes.
Proof. apply resolve_language_range. Qed.

(** ** The size of the cache *)

Lemma text_to_speech_new_key w request s lang_code :
  is_Some (pipelines (snd (text_to_speech w request s)) !! lang_code) ->
  is_Some (pipelines s !! lang_code) \/ In lang_code model_codes.
Proof.
  destruct (text_to_speech_state w request s) as (-> & _).
  destruct (decide (lang_code = request_lang_code request)) as [->|Hne].
  - intros _. right. apply request_lang_code_is_model_code.
  - rewrite get_pipeline_other_keys by done. by left.
Qed.

Lemma requests_new_keys w requests s lang_code :
  is_Some (pipelines (run_ops w (map OpRequest requests) s) !! lang_code) ->
  is_Some (pipelines s !! lang_code) \/ In lang_code model_codes.
Proof.
  unfold run_ops. revert s.
  induction requests as [|request requests IH]; intros s; simpl; [by left|].
  intros Hsome. destruct (IH _ Hsome) as [Hprev|Hcode]; [|by right].
  by eapply text_to_speech_new_key.
Qed.

(** X6.  Requests add to the cache only entries for the five model codes:
    after any number of requests, with any language tags, every key of the
    map was there before or is one of a, b, e, j, z, so the map has grown
    by at most five entries. *)
Theorem requests_grow_cache_by_at_most_five w requests s :
  let s' := run_ops w (map OpRequest requests) s in
  (forall lang_code,
     is_Some (pipelines s' !! lang_code) ->
     is_Some (pipelines s !! lang_code) \/ In lang_code model_codes) /\
  size (pipelines s') <= size (pipelines s) + 5.
Proof.
  intros s'. split; [intros c; apply requests_new_keys|].
  rewrite <- !size_dom.
  etrans; [apply (subseteq_size _ (dom (pipelines s) ∪ list_to_set model_codes))|].
  - intros c Hc. apply elem_of_dom in Hc.
    destruct (requests_new_keys _ _ _ _ Hc) as [Hold|Hcode].
    + apply elem_of_union_l. by apply elem_of_dom.
    + apply elem_of_union_r, elem_of_list_to_set. by apply list_elem_of_In.
  - rewrite size_union_alt.
    apply Nat.add_le_mono_l.
    etrans; [apply subseteq_size, subseteq_difference_l; reflexivity|].
    rewrite size_list_to_set; [done|].
    apply (bool_decide_eq_true_1 (NoDup model_codes)). reflexivity.
Qed.

Lemma requests_grow_cache_by_at_most_five_witness :
  size (pipelines (run_ops demo_world
                     (map OpRequest
                        [demo_request; demo_request_empty; demo_request_mute;
                         {| text := "x"; lang := "klingon" |}])
                     initial_state)) <= 5.
Proof.
  destruct (requests_grow_cache_by_at_most_five
              demo_world
              [demo_request; demo_request_empty; demo_request_mute;
               {| text := "x"; lang := "klingon" |}]
              initial_state) as [_ Hsize].
  exact Hsize.
Defined.

(** ** [convert_to_ogg] *)

(** X7.  [convert_to_ogg] never raises, whatever [subprocess.run] does: it
    runs [ffmpeg -i <wav> -c:a libopus -b:a 24k <ogg> -y] exactly once,
    returns [True] if the run returned and [False] if it raised (a non-zero
    exit status or any other exception), and leaves the cache alone. *)
Theorem convert_to_ogg_never_raises w wav_path ogg_path s :
  exists outcome,
    outcome =
      subprocess_run w (length (trace s))
        ["ffmpeg"; "-i"; wav_path; "-c:a"; "libopus"; "-b:a"; "24k";
         ogg_path; "-y"] /\
    convert_to_ogg w wav_path ogg_path s =
      (inr (if outcome is inr _ then true else false),
       {| pipelines := pipelines s;
          trace := trace s ++
            [EvSubprocessRun
               ["ffmpeg"; "-i"; wav_path; "-c:a"; "libopus"; "-b:a"; "24k";
                ogg_path; "-y"] outcome] |}).
Proof.
  eexists. split; [reflexivity|].
  rewrite convert_to_ogg_run. unfold ffmpeg_cmd, log. cbv zeta.
  by destruct (subprocess_run w _ _).
Qed.

(** ** Order and completeness of the steps of a request *)

Lemma collect_audio_throw batches e rest acc :
  collect_audio (map Yield batches ++ Throw e :: rest) acc = inl e.
Proof.
  revert acc. induction batches as [|r batches IH]; intros acc; [done|].
  simpl. unfold collect_audio; fold collect_audio. apply IH.
Qed.

Lemma encoder_run_shape w request evs r cmd outcome :
  tts_run w request evs r ->
  In (EvSubprocessRun cmd outcome) evs ->
  exists before random data,
    evs = before ++ [EvSfWrite (wav_path_of w random) data 24000 (inr tt);
                     EvSubprocessRun cmd outcome] /\
    cmd = ffmpeg_cmd (wav_path_of w random) (ogg_path_of w random) /\
    In (EvUuid4 random) before /\
    Forall (fun ev => is_encoder_run ev = false) before.
Proof.
  intros Hrun Hin.
  invert_run Hrun; find_in_log Hin; injection Hin as ? ?; subst;
    match goal with
    | |- exists _ _ _, ?evs = _ /\ _ =>
        exists (removelast (removelast evs)), random, (np_concatenate segments)
    end;
    (split; [reflexivity|]); (split; [reflexivity|]);
    (split; [simpl; tauto | simpl; repeat constructor]).
Qed.

(** X8.  The encoder is run at most once per request and as its last
    external call, directly after [soundfile.write] has returned for the
    very file the encoder is given as input; both paths of the command come
    from the identifier drawn earlier in the same request. *)
Theorem encoder_runs_last_on_written_file w request s cmd outcome :
  In (EvSubprocessRun cmd outcome) (tts_events w request s) ->
  exists before random data,
    tts_events w request s =
      before ++ [EvSfWrite (wav_path_of w random) data 24000 (inr tt);
                 EvSubprocessRun cmd outcome] /\
    cmd = ["ffmpeg"; "-i"; wav_path_of w random; "-c:a"; "libopus";
           "-b:a"; "24k"; ogg_path_of w random; "-y"] /\
    In (EvUuid4 random) before /\
    no_encoder_run before.
Proof.
  intros Hin.
  destruct (request_run w request s) as (r & Hrun & _ & _).
  apply (encoder_run_shape _ _ _ _ _ _ Hrun Hin).
Qed.

Lemma encoder_runs_last_on_written_file_witness :
  exists before random data,
    tts_events demo_world_encoder_fails demo_request initial_state =
      before ++ [EvSfWrite (wav_path_of demo_world_encoder_fails random)
                           data 24000 (inr tt);
                 EvSubprocessRun
                   (ffmpeg_cmd
                      "/tmp/tts_audio/01234567-89ab-4def-8123-456789abcdf0.wav"
                      "/tmp/tts_audio/01234567-89ab-4def-8123-456789abcdf0.ogg")
                   (inl (CalledProcessError 1 "ffmpeg: error"
                           "Command 'ffmpeg' returned non-zero exit status 1."))].
Proof.
  destruct (encoder_runs_last_on_written_file
              demo_world_encoder_fails demo_request initial_state
              (ffmpeg_cmd
                 "/tmp/tts_audio/01234567-89ab-4def-8123-456789abcdf0.wav"
                 "/tmp/tts_audio/01234567-89ab-4def-8123-456789abcdf0.ogg")
              (inl (CalledProcessError 1 "ffmpeg: error"
                      "Command 'ffmpeg' returned non-zero exit status 1.")))
    as (before & random & data & Hevs & _).
  - vm_compute. tauto.
  - by exists before, random, data.
Defined.

Lemma failed_synthesis_run w request evs r pid tokens voice speed g2 e :
  tts_run w request evs r ->
  In (EvGenerateFromTokens pid tokens voice speed g2) evs ->
  collect_audio g2 [] = inl e ->
  r = inl e /\
  Forall (fun ev => is_write_event ev = false) evs /\ no_encoder_run evs.
Proof.
  intros Hrun Hin Hcol.
  invert_run Hrun; find_in_log Hin; injection Hin as ? ? ? ? ?; subst;
    try congruence;
    (split; [congruence|]);
    (split; [simpl; repeat constructor | log_has_no_encoder]).
Qed.

(** X9.  If the synthesis generator raises [e] after yielding some batches
    (or none), the batches already collected are dropped: nothing is
    written, the encoder is not run, and the request fails with a 500 whose
    detail is ["Internal server error: "] followed by [str(e)]. *)
Theorem failed_synthesis_writes_nothing
    w request s pid tokens voice speed batches e rest :
  In (EvGenerateFromTokens pid tokens voice speed
        (map Yield batches ++ Throw e :: rest))
     (tts_events w request s) ->
  tts_result w request s =
    inl (HTTPException 500 ("Internal server error: " +:+ exc_str e)) /\
  Forall (fun ev => is_write_event ev = false) (tts_events w request s) /\
  no_encoder_run (tts_events w request s).
Proof.
  intros Hin.
  destruct (request_run w request s) as (r & Hrun & _ & ->).
  destruct (failed_synthesis_run _ _ _ _ _ _ _ _ _ e Hrun Hin)
    as (-> & Hwrite & Henc); [apply collect_audio_throw | done].
Qed.

Lemma failed_synthesis_writes_nothing_witness :
  tts_result demo_world_odd demo_request initial_state =
    inl (HTTPException 500 "Internal server error: out of memory") /\
  Forall (fun ev => is_write_event ev = false)
         (tts_events demo_world_odd demo_request initial_state).
Proof.
  destruct (failed_synthesis_writes_nothing
              demo_world_odd demo_request initial_state
              0 "ph:hello" "bf_sunny" (PyFloat 1 0)
              [demo_batch "ph:hello" [1%Z; 2%Z]]
              (OtherException "RuntimeError" "out of memory")
              [Yield (demo_batch "ph:hello" [3%Z])])
    as (Hres & Hwrite & _).
  - vm_compute. tauto.
  - split; [exact Hres | exact Hwrite].
Defined.

Lemma failed_write_run w request evs r path data rate e :
  tts_run w request evs r ->
  In (EvSfWrite path data rate (inl e)) evs ->
  r = inl e /\ no_encoder_run evs.
Proof.
  intros Hrun Hin.
  invert_run Hrun; find_in_log Hin; injection Hin as ? ? ? ?; subst;
    (split; [done | log_has_no_encoder; unfold write_event; repeat constructor]).
Qed.

(** X10.  If [soundfile.write] raises [e], the encoder is not run and the
    request fails with a 500 whose detail is ["Internal server error: "]
    followed by [str(e)]. *)
Theorem failed_write_skips_encoder w request s path data rate e :
  In (EvSfWrite path data rate (inl e)) (tts_events w request s) ->
  tts_result w request s =
    inl (HTTPException 500 ("Internal server error: " +:+ exc_str e)) /\
  no_encoder_run (tts_events w request s).
Proof.
  intros Hin.
  destruct (request_run w request s) as (r & Hrun & _ & ->).
  by destruct (failed_write_run _ _ _ _ _ _ _ _ Hrun Hin) as (-> & Henc).
Qed.

Lemma failed_write_skips_encoder_witness :
  tts_result demo_world_write_fails demo_request initial_state =
    inl (HTTPException 500 "Internal server error: Error opening file") /\
  no_encoder_run (tts_events demo_world_write_fails demo_request initial_state).
Proof.
  apply (failed_write_skips_encoder
           demo_world_write_fails demo_request initial_state
           "/tmp/tts_audio/01234567-89ab-4def-8123-456789abcdf0.wav"
           [10; 20; 30]%Z 24000%Z
           (OtherException "LibsndfileError" "Error opening file")).
  vm_compute. tauto.
Defined.

Lemma failed_phonemize_run w request evs r pid txt voice speed split g e :
  tts_run w request evs r ->
  In (EvPipelineCall pid txt voice speed split g) evs ->
  first_phonemes g = inl e ->
  r = inl e /\ Forall (fun ev => is_synthesis_event ev = false) evs.
Proof.
  intros Hrun Hin Hfirst.
  invert_run Hrun; find_in_log Hin; injection Hin as ? ? ? ? ? ?; subst;
    try congruence;
    (split; [congruence | simpl; repeat constructor]).
Qed.

(** X11.  If reading the first batch raises, either because the generator
    raises [e] before yielding or because the batch's [ps] is an empty
    tuple, so that [ps[0]] raises [IndexError], then the synthesis entry
    point is never called and the request fails with a 500 whose detail is
    ["Internal server error: "] followed by the exception's text. *)
Theorem failed_first_batch_skips_synthesis
    w request s pid txt voice speed split g e :
  In (EvPipelineCall pid txt voice speed split g) (tts_events w request s) ->
  (exists rest, g = Throw e :: rest) \/
  (exists r rest,
     g = Yield r :: rest /\ res_ps r = PsTuple [] /\
     e = OtherException "IndexError" "tuple index out of range") ->
  tts_result w request s =
    inl (HTTPException 500 ("Internal server error: " +:+ exc_str e)) /\
  Forall (fun ev => is_synthesis_event ev = false) (tts_events w request s).
Proof.
  intros Hin Hg.
  assert (Hfirst : first_phonemes g = inl e).
  { destruct Hg as [(rest & ->) | (r & rest & -> & Hps & ->)]; [done|].
    unfold first_phonemes. by rewrite Hps. }
  destruct (request_run w request s) as (r0 & Hrun & _ & ->).
  by destruct (failed_phonemize_run _ _ _ _ _ _ _ _ _ _ _ Hrun Hin Hfirst)
    as (-> & Hsyn).
Qed.

Lemma failed_first_batch_skips_synthesis_witness :
  tts_result demo_world_odd demo_request_tuple initial_state =
    inl (HTTPException 500 "Internal server error: tuple index out of range").
Proof.
  destruct (failed_first_batch_skips_synthesis
              demo_world_odd demo_request_tuple initial_state
              0 "tuple" "af_heart" (PyInt 1) None
              [Yield {| res_gs := "tuple"; res_ps := PsTuple [];
                        res_audio := [] |}]
              (OtherException "IndexError" "tuple index out of range"))
    as (Hres & _).
  - vm_compute. tauto.
  - right. by eexists _, _.
  - exact Hres.
Defined.

Lemma delivered_run w request evs r :
  tts_run w request evs r ->
  (exists file, r = inr file) <->
  (exists cmd, In (EvSubprocessRun cmd (inr tt)) evs).
Proof.
  intros Hrun. split.
  - intros (file & ->).
    destruct (run_delivered_file _ _ _ _ Hrun)
      as (random & segments & _ & _ & _ & Hin & _).
    by eexists.
  - intros (cmd & Hin).
    invert_run Hrun; find_in_log Hin; by eexists.
Qed.

(** X12.  A request returns a file exactly when its log shows an encoder
    run that returned: nothing after the encoder can fail the request, and
    no file is returned without a completed encoding. *)
Theorem file_returned_iff_encoder_succeeded w request s :
  (exists file, tts_result w request s = inr file) <->
  (exists cmd, In (EvSubprocessRun cmd (inr tt)) (tts_events w request s)).
Proof.
  destruct (request_run w request s) as (r & Hrun & _ & ->).
  rewrite <- (delivered_run _ _ _ _ Hrun).
  destruct r as [e|file]; simpl; split; intros (f & Hf); (done || by eexists).
Qed.

Lemma file_returned_iff_encoder_succeeded_witness :
  exists file, tts_result demo_world demo_request initial_state = inr file.
Proof.
  apply (file_returned_iff_encoder_succeeded
           demo_world demo_request initial_state).
  exists (ffmpeg_cmd "/tmp/tts_audio/01234567-89ab-4def-8123-456789abcdf0.wav"
                     "/tmp/tts_audio/01234567-89ab-4def-8123-456789abcdf0.ogg").
  vm_compute. tauto.
Defined.

(** ** Where the artifacts go *)

Lemma append_cons c s t : String c s +:+ t = String c (s +:+ t).
Proof. reflexivity. Qed.

Lemma append_nil_l t : "" +:+ t = t.
Proof. reflexivity. Qed.

Lemma append_length s t :
  String.length (s +:+ t) = String.length s + String.length t.
Proof.
  induction s as [|c s IH]; [done|]. rewrite append_cons. simpl. by rewrite IH.
Qed.

Lemma append_cancel_r s1 s2 t : s1 +:+ t = s2 +:+ t -> s1 = s2.
Proof.
  revert s2. induction s1 as [|c1 s1 IH]; intros [|c2 s2] Heq; [done|..].
  - apply (f_equal String.length) in Heq.
    rewrite append_nil_l, append_cons in Heq. simpl in Heq.
    rewrite append_length in Heq. lia.
  - apply (f_equal String.length) in Heq.
    rewrite append_nil_l, append_cons in Heq. simpl in Heq.
    rewrite append_length in Heq. lia.
  - rewrite !append_cons in Heq. injection Heq as -> Heq.
    f_equal. by apply IH.
Qed.

Lemma endswith_sep_append a b : b <> "" -> endswith_sep (a +:+ b) = endswith_sep b.
Proof.
  intros Hb. induction a as [|c a IH]; [done|].
  rewrite append_cons. simpl.
  destruct (a +:+ b) eqn:Heq; [|done].
  destruct a; [by rewrite append_nil_l in Heq | by rewrite append_cons in Heq].
Qed.

Lemma append_nonempty a b : b <> "" -> a +:+ b <> "".
Proof. intros Hb. destruct a; [by rewrite append_nil_l | by rewrite append_cons]. Qed.

(** [TEMP_DIR] is the system's directory followed by [tts_audio]; it is
    never empty and never ends in a separator. *)
Lemma TEMP_DIR_shape w :
  (TEMP_DIR w = gettempdir w +:+ "tts_audio" \/
   TEMP_DIR w = gettempdir w +:+ "/" +:+ "tts_audio") /\
  TEMP_DIR w <> "" /\ endswith_sep (TEMP_DIR w) = false.
Proof.
  unfold TEMP_DIR, os_path_join.
  change (startswith_sep "tts_audio") with false. cbv iota.
  destruct (bool_decide (gettempdir w = "") || endswith_sep (gettempdir w)).
  - split; [by left|]. split; [by apply append_nonempty|].
    by rewrite endswith_sep_append.
  - split; [by right|]. split; [by apply append_nonempty|].
    by rewrite endswith_sep_append.
Qed.

Lemma hex_digit_not_sep d :
  (0 <= d < 16)%Z -> forall s, startswith_sep (String (hex_digit d) s) = false.
Proof.
  intros Hd s.
  assert (Hcases : In d (map Z.of_nat (seq 0 16))).
  { apply in_map_iff. exists (Z.to_nat d). split; [lia|]. apply in_seq. lia. }
  simpl in Hcases. intuition (subst; reflexivity).
Qed.

Lemma request_id_not_absolute random suffix :
  startswith_sep (request_id_of random +:+ suffix) = false.
Proof.
  unfold request_id_of, uuid_str.
  cbv beta iota zeta delta [hex_fixed String.append String.substring].
  apply hex_digit_not_sep. apply Z.mod_pos_bound. lia.
Qed.

Lemma artifact_paths w random :
  wav_path_of w random = TEMP_DIR w +:+ "/" +:+ request_id_of random +:+ ".wav" /\
  ogg_path_of w random = TEMP_DIR w +:+ "/" +:+ request_id_of random +:+ ".ogg".
Proof.
  destruct (TEMP_DIR_shape w) as (_ & Hne & Hend).
  unfold wav_path_of, ogg_path_of, os_path_join.
  rewrite !request_id_not_absolute, Hend.
  by rewrite (bool_decide_eq_false_2 (TEMP_DIR w = "")) by done.
Qed.

(** X13.  Both artifacts of a request lie directly in [TEMP_DIR], whatever
    the system's temporary directory is called (empty, or with or without
    a trailing separator): the paths are [TEMP_DIR/<request_id>.wav] and
    [TEMP_DIR/<request_id>.ogg], and [TEMP_DIR] is that directory's
    [tts_audio] entry. *)
Theorem artifacts_lie_in_temp_dir w random :
  wav_path_of w random = TEMP_DIR w +:+ "/" +:+ request_id_of random +:+ ".wav" /\
  ogg_path_of w random = TEMP_DIR w +:+ "/" +:+ request_id_of random +:+ ".ogg" /\
  (TEMP_DIR w = gettempdir w +:+ "tts_audio" \/
   TEMP_DIR w = gettempdir w +:+ "/tts_audio").
Proof.
  destruct (TEMP_DIR_shape w) as (Hshape & _).
  destruct (artifact_paths w random) as [Hwav Hogg].
  by repeat split.
Qed.

(** ** Identifiers can be told apart *)

Section UuidRoundTrip.

Local Open Scope Z_scope.

Lemma hex_value_digit d : 0 <= d < 16 -> hex_value (hex_digit d) = d.
Proof.
  intros Hd.
  assert (Hcases : In d (map Z.of_nat (seq 0 16))).
  { apply in_map_iff. exists (Z.to_nat d). split; [lia|]. apply in_seq. lia. }
  simpl in Hcases. intuition (subst; reflexivity).
Qed.

Lemma hex_digit_not_dash d : 0 <= d < 16 -> Ascii.eqb (hex_digit d) "-" = false.
Proof.
  intros Hd.
  assert (Hcases : In d (map Z.of_nat (seq 0 16))).
  { apply in_map_iff. exists (Z.to_nat d). split; [lia|]. apply in_seq. lia. }
  simpl in Hcases. intuition (subst; reflexivity).
Qed.

Lemma parse_hex_from_snoc acc s c :
  parse_hex_from acc (s +:+ String c "") =
  16 * parse_hex_from acc s + hex_value c.
Proof.
  revert acc. induction s as [|c' s IH]; intros acc; [done|].
  rewrite append_cons. simpl. apply IH.
Qed.

(** [int('%0<width>x' % i, 16)] gives back [i] below [16^width]. *)
Lemma parse_hex_fixed width i :
  parse_hex (hex_fixed width i) = i mod 16 ^ Z.of_nat width.
Proof.
  unfold parse_hex. revert i.
  induction width as [|k IH]; intros i.
  - simpl. by rewrite Z.mod_1_r.
  - cbn [hex_fixed]. rewrite parse_hex_from_snoc, IH.
    rewrite hex_value_digit by (apply Z.mod_pos_bound; lia).
    replace (16 ^ Z.of_nat (S k)) with (16 * 16 ^ Z.of_nat k)
      by (rewrite Nat2Z.inj_succ, Z.pow_succ_r; lia).
    rewrite Z.rem_mul_r by lia. lia.
Qed.

(** Dropping the hyphens of [UUID.__str__] gives the 32 digits back. *)
Lemma undash_digit d s :
  0 <= d < 16 ->
  undash (String (hex_digit d) s) = String (hex_digit d) (undash s).
Proof. intros Hd. simpl. by rewrite hex_digit_not_dash. Qed.

Lemma undash_dash s : undash (String "-" s) = undash s.
Proof. reflexivity. Qed.

Lemma undash_uuid_str i : undash (uuid_str i) = hex_fixed 32 i.
Proof.
  unfold uuid_str.
  cbv beta iota zeta delta [hex_fixed String.append String.substring].
  repeat first [ rewrite undash_digit by (apply Z.mod_pos_bound; lia)
               | rewrite undash_dash ].
  reflexivity.
Qed.

Lemma uuid_str_round_trip i :
  0 <= i < 2 ^ 128 -> parse_hex (undash (uuid_str i)) = i.
Proof.
  intros Hi. rewrite undash_uuid_str, parse_hex_fixed.
  change (16 ^ Z.of_nat 32) with (2 ^ 128). by apply Z.mod_small.
Qed.

Lemma uuid4_int_range random : 0 <= uuid4_int random < 2 ^ 128.
Proof.
  assert (Hmod : uuid4_int random = uuid4_int random mod 2 ^ 128).
  { apply Z.bits_inj'. intros n Hn.
    destruct (Z.lt_ge_cases n 128) as [Hlow|Hhigh].
    - by rewrite Z.mod_pow2_bits_low.
    - rewrite Z.mod_pow2_bits_high by lia.
      unfold uuid4_int. cbv zeta.
      rewrite Z.lor_spec, Z.land_spec, Z.lor_spec, Z.land_spec.
      rewrite Z.mod_pow2_bits_high by lia.
      rewrite (Z.bits_above_log2 (Z.shiftl 32768 48) n),
              (Z.bits_above_log2 (Z.shiftl 4 76) n);
        first [ done
              | change (Z.log2 (Z.shiftl 4 76)) with 78; lia
              | change (Z.log2 (Z.shiftl 32768 48)) with 63; lia ]. }
  rewrite Hmod. apply Z.mod_pos_bound. lia.
Qed.

Lemma request_id_injective random1 random2 :
  request_id_of random1 = request_id_of random2 ->
  uuid4_int random1 = uuid4_int random2.
Proof.
  unfold request_id_of. intros Heq.
  rewrite <- (uuid_str_round_trip (uuid4_int random1)),
          <- (uuid_str_round_trip (uuid4_int random2))
    by apply uuid4_int_range.
  by rewrite Heq.
Qed.

End UuidRoundTrip.

(** X14.  Requests whose draws give different UUIDs get different request
    identifiers, different WAV and OGG paths and different download names:
    the identifier determines the UUID (its digits read back as the same
    128-bit number), so two requests never share an artifact unless they
    drew the same UUID. *)
Theorem distinct_uuids_give_distinct_artifacts w random1 random2 :
  uuid4_int random1 <> uuid4_int random2 ->
  request_id_of random1 <> request_id_of random2 /\
  wav_path_of w random1 <> wav_path_of w random2 /\
  ogg_path_of w random1 <> ogg_path_of w random2 /\
  "speech_" +:+ request_id_of random1 +:+ ".ogg"
    <> "speech_" +:+ request_id_of random2 +:+ ".ogg".
Proof.
  intros Hne.
  assert (Hid : request_id_of random1 <> request_id_of random2).
  { intros Heq. by apply Hne, request_id_injective. }
  destruct (artifact_paths w random1) as (-> & ->).
  destruct (artifact_paths w random2) as (-> & ->).
  split; [done|].
  repeat split; intros Heq; apply Hid;
    repeat (apply String.app_inj in Heq); by apply append_cancel_r in Heq.
Qed.

Lemma distinct_uuids_give_distinct_artifacts_witness :
  wav_path_of demo_world 1 <> wav_path_of demo_world 2.
Proof.
  apply (distinct_uuids_give_distinct_artifacts demo_world 1 2).
  vm_compute. discriminate.
Defined.
